(** * E-Procurement API: a shallow embedding of [main.py] and [schemas.py]

    The handlers of [main.py] are embedded as functions in a small
    state-and-exception monad over a typed image of the MongoDB database:
    one list of documents per collection, in insertion order.

    Conventions of the embedding.
    - Documents are records whose fields are those of [schemas.py] (plus
      [_id] and the time stamps of the store); a field that the schema
      declares [Optional] is an [option].
    - Quantities are Python floats and BSON doubles in the source.  They
      are the binary64 floats of Rocq ([PrimFloat.float]), added by
      [PrimFloat.add] and compared by [PrimFloat.leb] as IEEE 754 prescribes,
      rounding, infinities and NaN included.  The builtin [sum] of Python
      is a parameter of the development.
    - [bson.ObjectId] is abstract: the parser of identifier strings and the
      printer [str] are parameters of the development.
    - [datetime.now] is an explicit argument [now] of every handler. *)

From Stdlib Require Import List String Ascii Bool ZArith NArith Floats Lia.
From Stdlib Require Import Permutation Sorted.
Import ListNotations.

Local Open Scope string_scope.
Local Open Scope Z_scope.

(** ** Data model *)

Definition ObjectId := N.
Definition Time := Z.

Module User.
Record t := mk {
  _id : ObjectId;
  name : string;
  email : string;
  role : string;
  department : option string;
  manager_id : option string;
  is_active : bool;
  created_at : Time
}.
End User.

Module Supplier.
Record t := mk {
  _id : ObjectId;
  name : string;
  code : string;
  contact_email : option string;
  phone : option string;
  address : option string;
  created_at : Time
}.
End Supplier.

Module Item.
Record t := mk {
  _id : ObjectId;
  sku : string;
  name : string;
  uom : string;
  description : option string;
  category : option string;
  created_at : Time
}.
End Item.

(** An inventory document is created either by [create_document] (with a
    time stamp) or by an upsert of the store (without one). *)
Module Inventory.
Record t := mk {
  _id : ObjectId;
  sku : string;
  on_hand : float;
  uom : string;
  created_at : option Time
}.
End Inventory.

Module PRLine.
Record t := mk { sku : string; name : string; qty : float; uom : string }.
End PRLine.

Module PurchaseRequest.
Record t := mk {
  _id : ObjectId;
  employee_id : string;
  manager_id : string;
  reason : option string;
  lines : list PRLine.t;
  status : string;
  approved_by : option string;
  approved_at : option Time;
  rejected_reason : option string;
  po_id : option string;
  created_at : Time
}.
End PurchaseRequest.

Module POLine.
Record t := mk { sku : string; name : string; qty : float; uom : string }.
End POLine.

Module PurchaseOrder.
Record t := mk {
  _id : ObjectId;
  pr_id : string;
  supplier_id : string;
  lines : list POLine.t;
  status : string;
  created_at : Time
}.
End PurchaseOrder.

Module GRLine.
Record t := mk { sku : string; name : string; qty_received : float; uom : string }.
End GRLine.

Module GoodsReceipt.
Record t := mk {
  _id : ObjectId;
  po_id : string;
  lines : list GRLine.t;
  created_at : Time
}.
End GoodsReceipt.

Module Notification.
Record t := mk {
  _id : ObjectId;
  to_user_id : option string;
  role : option string;
  title : string;
  message : string;
  link_type : option string;
  link_id : option string;
  read : bool;
  created_at : Time;
  updated_at : option Time
}.
End Notification.

(** Request bodies of [main.py]. *)

Record UserIn := {
  ui_name : string;
  ui_email : string;
  ui_role : string;
  ui_department : option string;
  ui_manager_id : option string
}.

Record SupplierIn := {
  si_name : string;
  si_code : string;
  si_contact_email : option string;
  si_phone : option string;
  si_address : option string
}.

Record ItemIn := {
  ii_sku : string;
  ii_name : string;
  ii_uom : string;
  ii_description : option string;
  ii_category : option string
}.

(** [PRLineIn] and [GRLineIn] declare [qty: float] and
    [qty_received: float] with no bound, so they are the same data as the
    stored lines. *)
Definition PRLineIn := PRLine.t.
Definition GRLineIn := GRLine.t.

Record PRCreate := {
  prc_employee_id : string;
  prc_manager_id : string;
  prc_reason : option string;
  prc_lines : list PRLineIn
}.

Record PRDecision := {
  prd_manager_id : string;
  prd_approve : bool;
  prd_rejected_reason : option string
}.

Record POCreate := { poc_pr_id : string; poc_supplier_id : string }.

Record GRCreate := { grc_po_id : string; grc_lines : list GRLineIn }.

(** ** The database *)

Record Store := {
  user : list User.t;
  supplier : list Supplier.t;
  item : list Item.t;
  inventory : list Inventory.t;
  purchaserequest : list PurchaseRequest.t;
  purchaseorder : list PurchaseOrder.t;
  goodsreceipt : list GoodsReceipt.t;
  notification : list Notification.t;
  next_oid : ObjectId
}.

Definition empty_store : Store :=
  {| user := []; supplier := []; item := []; inventory := [];
     purchaserequest := []; purchaseorder := []; goodsreceipt := [];
     notification := []; next_oid := 0%N |}.

Definition set_user (l : list User.t) (s : Store) : Store :=
  {| user := l; supplier := supplier s; item := item s;
     inventory := inventory s; purchaserequest := purchaserequest s;
     purchaseorder := purchaseorder s; goodsreceipt := goodsreceipt s;
     notification := notification s; next_oid := next_oid s |}.

Definition set_supplier (l : list Supplier.t) (s : Store) : Store :=
  {| user := user s; supplier := l; item := item s;
     inventory := inventory s; purchaserequest := purchaserequest s;
     purchaseorder := purchaseorder s; goodsreceipt := goodsreceipt s;
     notification := notification s; next_oid := next_oid s |}.

Definition set_item (l : list Item.t) (s : Store) : Store :=
  {| user := user s; supplier := supplier s; item := l;
     inventory := inventory s; purchaserequest := purchaserequest s;
     purchaseorder := purchaseorder s; goodsreceipt := goodsreceipt s;
     notification := notification s; next_oid := next_oid s |}.

Definition set_inventory (l : list Inventory.t) (s : Store) : Store :=
  {| user := user s; supplier := supplier s; item := item s;
     inventory := l; purchaserequest := purchaserequest s;
     purchaseorder := purchaseorder s; goodsreceipt := goodsreceipt s;
     notification := notification s; next_oid := next_oid s |}.

Definition set_purchaserequest (l : list PurchaseRequest.t) (s : Store) : Store :=
  {| user := user s; supplier := supplier s; item := item s;
     inventory := inventory s; purchaserequest := l;
     purchaseorder := purchaseorder s; goodsreceipt := goodsreceipt s;
     notification := notification s; next_oid := next_oid s |}.

Definition set_purchaseorder (l : list PurchaseOrder.t) (s : Store) : Store :=
  {| user := user s; supplier := supplier s; item := item s;
     inventory := inventory s; purchaserequest := purchaserequest s;
     purchaseorder := l; goodsreceipt := goodsreceipt s;
     notification := notification s; next_oid := next_oid s |}.

Definition set_goodsreceipt (l : list GoodsReceipt.t) (s : Store) : Store :=
  {| user := user s; supplier := supplier s; item := item s;
     inventory := inventory s; purchaserequest := purchaserequest s;
     purchaseorder := purchaseorder s; goodsreceipt := l;
     notification := notification s; next_oid := next_oid s |}.

Definition set_notification (l : list Notification.t) (s : Store) : Store :=
  {| user := user s; supplier := supplier s; item := item s;
     inventory := inventory s; purchaserequest := purchaserequest s;
     purchaseorder := purchaseorder s; goodsreceipt := goodsreceipt s;
     notification := l; next_oid := next_oid s |}.

Definition set_next_oid (o : ObjectId) (s : Store) : Store :=
  {| user := user s; supplier := supplier s; item := item s;
     inventory := inventory s; purchaserequest := purchaserequest s;
     purchaseorder := purchaseorder s; goodsreceipt := goodsreceipt s;
     notification := notification s; next_oid := o |}.

(** [db[name]]: a collection is a lens into the store. *)
Record Collection (D : Type) := {
  docs : Store -> list D;
  put_docs : list D -> Store -> Store
}.
Arguments docs {D} _ _.
Arguments put_docs {D} _ _ _.

Definition db_user := {| docs := user; put_docs := set_user |}.
Definition db_supplier := {| docs := supplier; put_docs := set_supplier |}.
Definition db_item := {| docs := item; put_docs := set_item |}.
Definition db_inventory := {| docs := inventory; put_docs := set_inventory |}.
Definition db_purchaserequest :=
  {| docs := purchaserequest; put_docs := set_purchaserequest |}.
Definition db_purchaseorder :=
  {| docs := purchaseorder; put_docs := set_purchaseorder |}.
Definition db_goodsreceipt :=
  {| docs := goodsreceipt; put_docs := set_goodsreceipt |}.
Definition db_notification :=
  {| docs := notification; put_docs := set_notification |}.

(** ** Handlers: state and [HTTPException] *)

Record HTTPException := { status_code : Z; detail : string }.

Inductive Outcome (A : Type) : Type :=
| Returned (a : A)
| Raised (e : HTTPException).
Arguments Returned {A} a.
Arguments Raised {A} e.

Definition Handler (A : Type) : Type := Store -> Outcome A * Store.

Definition ret {A} (a : A) : Handler A := fun s => (Returned a, s).

Definition bind {A B} (m : Handler A) (k : A -> Handler B) : Handler B :=
  fun s =>
    match m s with
    | (Returned a, s') => k a s'
    | (Raised e, s') => (Raised e, s')
    end.

Definition raise {A} (code : Z) (msg : string) : Handler A :=
  fun s => (Raised {| status_code := code; detail := msg |}, s).

Declare Scope handler_scope.
Delimit Scope handler_scope with handler.
Notation "x <- m ;; k" := (bind m (fun x => k))
  (at level 61, m at next level, right associativity) : handler_scope.
Notation "m ;; k" := (bind m (fun _ => k))
  (at level 61, right associativity) : handler_scope.
Local Open Scope handler_scope.

Fixpoint for_each {A} (l : list A) (body : A -> Handler unit) : Handler unit :=
  match l with
  | [] => ret tt
  | a :: l' => body a ;; for_each l' body
  end.

(** ** Store primitives (pymongo) *)

(** [update_one]: the first document matching the filter is updated. *)
Fixpoint update_first {D} (q : D -> bool) (u : D -> D) (l : list D) : list D :=
  match l with
  | [] => []
  | d :: l' => if q d then u d :: l' else d :: update_first q u l'
  end.

Definition find_one {D} (c : Collection D) (q : D -> bool) : Handler (option D) :=
  fun s => (Returned (find q (docs c s)), s).

Definition find_all {D} (c : Collection D) (q : D -> bool) : Handler (list D) :=
  fun s => (Returned (filter q (docs c s)), s).

Definition update_one {D} (c : Collection D) (q : D -> bool) (u : D -> D)
  : Handler unit :=
  fun s => (Returned tt, put_docs c (update_first q u (docs c s)) s).

Definition fresh_oid : Handler ObjectId :=
  fun s => (Returned (next_oid s), set_next_oid (N.succ (next_oid s)) s).

Definition insert_one {D} (c : Collection D) (d : D) : Handler unit :=
  fun s => (Returned tt, put_docs c (docs c s ++ [d]) s).

(** [update_one(..., upsert=True)]: when no document matches, a document
    built from the filter and the update is inserted under a fresh [_id]. *)
Definition update_one_upsert {D} (c : Collection D) (q : D -> bool) (u : D -> D)
  (ins : ObjectId -> D) : Handler unit :=
  fun s =>
    if existsb q (docs c s) then update_one c q u s
    else (o <- fresh_oid ;; insert_one c (ins o)) s.

(** ** The handlers of [main.py] *)

(** Bodies of the JSON answers: [{"id": new_id}] and [{"ok": True}]. *)
Inductive Response :=
| IdResponse (id : string)
| OkResponse.

Definition PR_SUBMITTED := "submitted".
Definition PR_APPROVED := "approved".
Definition PR_REJECTED := "rejected".
Definition PR_ORDERED := "ordered".
Definition PO_SENT := "sent".
Definition PO_RECEIVED := "received".
Definition PO_PARTIALLY_RECEIVED := "partially_received".

(** The [$set] documents of the handlers. *)

Definition set_approved (by_ : string) (now : Time) (d : PurchaseRequest.t)
  : PurchaseRequest.t :=
  PurchaseRequest.mk (PurchaseRequest._id d) (PurchaseRequest.employee_id d)
    (PurchaseRequest.manager_id d) (PurchaseRequest.reason d)
    (PurchaseRequest.lines d) PR_APPROVED (Some by_) (Some now)
    (PurchaseRequest.rejected_reason d) (PurchaseRequest.po_id d)
    (PurchaseRequest.created_at d).

Definition set_rejected (why : string) (d : PurchaseRequest.t)
  : PurchaseRequest.t :=
  PurchaseRequest.mk (PurchaseRequest._id d) (PurchaseRequest.employee_id d)
    (PurchaseRequest.manager_id d) (PurchaseRequest.reason d)
    (PurchaseRequest.lines d) PR_REJECTED (PurchaseRequest.approved_by d)
    (PurchaseRequest.approved_at d) (Some why) (PurchaseRequest.po_id d)
    (PurchaseRequest.created_at d).

Definition set_ordered (po : string) (d : PurchaseRequest.t)
  : PurchaseRequest.t :=
  PurchaseRequest.mk (PurchaseRequest._id d) (PurchaseRequest.employee_id d)
    (PurchaseRequest.manager_id d) (PurchaseRequest.reason d)
    (PurchaseRequest.lines d) PR_ORDERED (PurchaseRequest.approved_by d)
    (PurchaseRequest.approved_at d) (PurchaseRequest.rejected_reason d)
    (Some po) (PurchaseRequest.created_at d).

Definition set_po_status (st : string) (d : PurchaseOrder.t) : PurchaseOrder.t :=
  PurchaseOrder.mk (PurchaseOrder._id d) (PurchaseOrder.pr_id d)
    (PurchaseOrder.supplier_id d) (PurchaseOrder.lines d) st
    (PurchaseOrder.created_at d).

(** [{"$inc": {"on_hand": q}}] on a stored double. *)
Definition inc_on_hand (q : float) (d : Inventory.t) : Inventory.t :=
  Inventory.mk (Inventory._id d) (Inventory.sku d)
    (PrimFloat.add (Inventory.on_hand d) q) (Inventory.uom d)
    (Inventory.created_at d).

Definition set_read (now : Time) (d : Notification.t) : Notification.t :=
  Notification.mk (Notification._id d) (Notification.to_user_id d)
    (Notification.role d) (Notification.title d) (Notification.message d)
    (Notification.link_type d) (Notification.link_id d) true
    (Notification.created_at d) (Some now).

(** [{"sku": l["sku"], "name": l["name"], "qty": l["qty"], "uom": l["uom"]}] *)
Definition copy_line (l : PRLine.t) : POLine.t :=
  POLine.mk (PRLine.sku l) (PRLine.name l) (PRLine.qty l) (PRLine.uom l).

(** [sum(float(l.get("qty", 0)) for l in po.get("lines", []))].  The
    builtin [sum] adds floats from left to right up to Python 3.11 and by a
    compensated summation from Python 3.12 on; [py_sum] stands for the one
    of the interpreter. *)
Definition total_po_qty (py_sum : list float -> float) (po : PurchaseOrder.t)
  : float :=
  py_sum (map POLine.qty (PurchaseOrder.lines po)).

(** The two nested loops of [create_gr] over the receipts of a purchase
    order: [total_received += float(...)], starting from [0.0]. *)
Definition total_received (grs : list GoodsReceipt.t) : float :=
  fold_left
    (fun acc g =>
       fold_left (fun acc' l => PrimFloat.add acc' (GRLine.qty_received l))
                 (GoodsReceipt.lines g) acc)
    grs 0%float.

(** Documents as the reading routes answer them: [id] holds the string of
    the identifier, in place of [_id]. *)

Module UserOut.
Record t := mk {
  id : string;
  name : string;
  email : string;
  role : string;
  department : option string;
  manager_id : option string;
  is_active : bool;
  created_at : Time
}.
End UserOut.

Module NotificationOut.
Record t := mk {
  id : string;
  to_user_id : option string;
  role : option string;
  title : string;
  message : string;
  link_type : option string;
  link_id : option string;
  read : bool;
  created_at : Time;
  updated_at : option Time
}.
End NotificationOut.

(** An optional query parameter is used when it is truthy: present and not
    the empty string. *)
Definition query_value (o : option string) : option string :=
  match o with
  | Some "" => None
  | Some v => Some v
  | None => None
  end.

(** The filter [{field: v}] on an optional string field: a null field does
    not match. *)
Definition field_is (f : option string) (v : string) : bool :=
  match f with
  | Some w => String.eqb w v
  | None => false
  end.

(** [bson.ObjectId(id_str)], which fails on a malformed string, and
    [str(ObjectId)]. *)
Record ObjectIdCodec := {
  ObjectId_of_str : string -> option ObjectId;
  str : ObjectId -> string
}.

Section Api.

Variable bson : ObjectIdCodec.

(** The builtin [sum] on a list of floats. *)
Variable py_sum : list float -> float.

Definition oid (id_str : string) : Handler ObjectId :=
  match ObjectId_of_str bson id_str with
  | Some o => ret o
  | None => raise 400 "Invalid id format"
  end.

(** Modelled from the spec: [create_document] of the module [database],
    which is not among the sources.  The spec describes the store as
    offering "create" with "id generation, timestamps": the document gets a
    fresh [_id] and its creation time, is appended to the collection, and the
    identifier is returned as a string. *)
Definition create_document {D} (c : Collection D) (now : Time)
  (data : ObjectId -> Time -> D) : Handler string :=
  o <- fresh_oid ;;
  insert_one c (data o now) ;;
  ret (str bson o).

Definition new_notification (to_user_id role : option string)
  (title message link_type link_id : string) (o : ObjectId) (t : Time)
  : Notification.t :=
  Notification.mk o to_user_id role title message (Some link_type)
    (Some link_id) false t None.

Definition create_user (now : Time) (u : UserIn) : Handler Response :=
  new_id <- create_document db_user now
    (fun o t => User.mk o (ui_name u) (ui_email u) (ui_role u)
                  (ui_department u) (ui_manager_id u) true t) ;;
  ret (IdResponse new_id).

Definition create_supplier (now : Time) (sp : SupplierIn) : Handler Response :=
  new_id <- create_document db_supplier now
    (fun o t => Supplier.mk o (si_name sp) (si_code sp) (si_contact_email sp)
                  (si_phone sp) (si_address sp) t) ;;
  ret (IdResponse new_id).

Definition create_item (now : Time) (it : ItemIn) : Handler Response :=
  item_id <- create_document db_item now
    (fun o t => Item.mk o (ii_sku it) (ii_name it) (ii_uom it)
                  (ii_description it) (ii_category it) t) ;;
  inv <- find_one db_inventory
    (fun d => String.eqb (Inventory.sku d) (ii_sku it)) ;;
  match inv with
  | None =>
      create_document db_inventory now
        (fun o t => Inventory.mk o (ii_sku it) 0%float (ii_uom it) (Some t)) ;;
      ret tt
  | Some _ => ret tt
  end ;;
  ret (IdResponse item_id).

Definition create_pr (now : Time) (pr : PRCreate) : Handler Response :=
  e <- oid (prc_employee_id pr) ;;
  emp <- find_one db_user
    (fun u => N.eqb (User._id u) e && String.eqb (User.role u) "employee") ;;
  match emp with
  | None => raise 400 "Invalid employee_id"
  | Some _ =>
  m <- oid (prc_manager_id pr) ;;
  mgr <- find_one db_user
    (fun u => N.eqb (User._id u) m && String.eqb (User.role u) "manager") ;;
  match mgr with
  | None => raise 400 "Invalid manager_id"
  | Some _ =>
  pr_id <- create_document db_purchaserequest now
    (fun o t => PurchaseRequest.mk o (prc_employee_id pr) (prc_manager_id pr)
                  (prc_reason pr) (prc_lines pr) PR_SUBMITTED
                  None None None None t) ;;
  create_document db_notification now
    (new_notification (Some (prc_manager_id pr)) None "New Purchase Request"
       ("PR " ++ pr_id ++ " awaiting your approval") "PR" pr_id) ;;
  ret (IdResponse pr_id)
  end end.

Definition decide_pr (now : Time) (pr_id : string) (decision : PRDecision)
  : Handler Response :=
  o <- oid pr_id ;;
  found <- find_one db_purchaserequest
    (fun d => N.eqb (PurchaseRequest._id d) o) ;;
  match found with
  | None => raise 404 "PR not found"
  | Some pr_doc =>
  if negb (String.eqb (PurchaseRequest.manager_id pr_doc)
                      (prd_manager_id decision))
  then raise 403 "Manager not assigned to this PR"
  else if negb (existsb (String.eqb (PurchaseRequest.status pr_doc))
                        [PR_SUBMITTED])
  then raise 400 "PR is not pending approval"
  else if prd_approve decision then
    o' <- oid pr_id ;;
    update_one db_purchaserequest
      (fun d => N.eqb (PurchaseRequest._id d) o')
      (set_approved (prd_manager_id decision) now) ;;
    create_document db_notification now
      (new_notification None (Some "purchasing") "PR Approved"
         ("PR " ++ pr_id ++ " is ready for PO") "PR" pr_id) ;;
    ret OkResponse
  else
    o' <- oid pr_id ;;
    update_one db_purchaserequest
      (fun d => N.eqb (PurchaseRequest._id d) o')
      (set_rejected
         (match prd_rejected_reason decision with
          | Some r => r
          | None => ""
          end)) ;;
    create_document db_notification now
      (new_notification (Some (PurchaseRequest.employee_id pr_doc)) None
         "PR Rejected" ("PR " ++ pr_id ++ " was rejected") "PR" pr_id) ;;
    ret OkResponse
  end.

Definition create_po (now : Time) (data : POCreate) : Handler Response :=
  o <- oid (poc_pr_id data) ;;
  found <- find_one db_purchaserequest
    (fun d => N.eqb (PurchaseRequest._id d) o) ;;
  match found with
  | None => raise 404 "PR not found"
  | Some pr_doc =>
  if negb (String.eqb (PurchaseRequest.status pr_doc) PR_APPROVED)
  then raise 400 "PR is not approved"
  else
  so <- oid (poc_supplier_id data) ;;
  sup <- find_one db_supplier (fun d => N.eqb (Supplier._id d) so) ;;
  match sup with
  | None => raise 400 "Invalid supplier_id"
  | Some _ =>
  po_id <- create_document db_purchaseorder now
    (fun o t => PurchaseOrder.mk o (poc_pr_id data) (poc_supplier_id data)
                  (map copy_line (PurchaseRequest.lines pr_doc)) PO_SENT t) ;;
  o' <- oid (poc_pr_id data) ;;
  update_one db_purchaserequest
    (fun d => N.eqb (PurchaseRequest._id d) o') (set_ordered po_id) ;;
  create_document db_notification now
    (new_notification (Some (PurchaseRequest.employee_id pr_doc)) None
       "PO Created" ("PO " ++ po_id ++ " created from your PR") "PO" po_id) ;;
  ret (IdResponse po_id)
  end end.

Definition create_gr (now : Time) (data : GRCreate) : Handler Response :=
  o <- oid (grc_po_id data) ;;
  found <- find_one db_purchaseorder
    (fun d => N.eqb (PurchaseOrder._id d) o) ;;
  match found with
  | None => raise 404 "PO not found"
  | Some po =>
  gr_id <- create_document db_goodsreceipt now
    (fun o t => GoodsReceipt.mk o (grc_po_id data) (grc_lines data) t) ;;
  for_each (grc_lines data)
    (fun line =>
       update_one_upsert db_inventory
         (fun d => String.eqb (Inventory.sku d) (GRLine.sku line))
         (inc_on_hand (GRLine.qty_received line))
         (fun o => Inventory.mk o (GRLine.sku line) (GRLine.qty_received line)
                     (GRLine.uom line) None)) ;;
  grs <- find_all db_goodsreceipt
    (fun g => String.eqb (GoodsReceipt.po_id g) (grc_po_id data)) ;;
  let new_status :=
    if PrimFloat.leb (total_po_qty py_sum po) (total_received grs)
    then PO_RECEIVED else PO_PARTIALLY_RECEIVED in
  o' <- oid (grc_po_id data) ;;
  update_one db_purchaseorder
    (fun d => N.eqb (PurchaseOrder._id d) o') (set_po_status new_status) ;;
  p <- oid (PurchaseOrder.pr_id po) ;;
  pr <- find_one db_purchaserequest
    (fun d => N.eqb (PurchaseRequest._id d) p) ;;
  match pr with
  | Some pr_doc =>
      create_document db_notification now
        (new_notification (Some (PurchaseRequest.employee_id pr_doc)) None
           "Goods Received"
           ("GR " ++ gr_id ++ " recorded and inventory updated") "GR" gr_id) ;;
      ret tt
  | None => ret tt
  end ;;
  ret (IdResponse gr_id)
  end.

Definition mark_notification_read (now : Time) (notif_id : string)
  : Handler Response :=
  o <- oid notif_id ;;
  update_one db_notification
    (fun d => N.eqb (Notification._id d) o) (set_read now) ;;
  ret OkResponse.

(** *** The reading routes

    [with_id] pops [_id] from a document and puts its string under [id].
    Its first branch, [if not doc: return doc], is for an absent or empty
    document; the documents of a cursor are never so. *)

Definition with_id_user (d : User.t) : UserOut.t :=
  UserOut.mk (str bson (User._id d)) (User.name d) (User.email d)
    (User.role d) (User.department d) (User.manager_id d) (User.is_active d)
    (User.created_at d).

Definition with_id_notification (d : Notification.t) : NotificationOut.t :=
  NotificationOut.mk (str bson (Notification._id d))
    (Notification.to_user_id d) (Notification.role d) (Notification.title d)
    (Notification.message d) (Notification.link_type d)
    (Notification.link_id d) (Notification.read d)
    (Notification.created_at d) (Notification.updated_at d).

(** [q = {"is_active": True}], with [q["role"] = role] when [role] is
    truthy. *)
Definition users_query (role : option string) (u : User.t) : bool :=
  User.is_active u &&
  match query_value role with
  | Some r => String.eqb (User.role u) r
  | None => true
  end.

Definition list_users (role : option string) : Handler (list UserOut.t) :=
  users <- find_all db_user (users_query role) ;;
  ret (map with_id_user (firstn 100 users)).

(** [q = {"read": False}], with [q["to_user_id"] = user_id] and
    [q["role"] = role] when these are truthy. *)
Definition notifications_query (user_id role : option string)
  (n : Notification.t) : bool :=
  negb (Notification.read n) &&
  match query_value user_id with
  | Some u => field_is (Notification.to_user_id n) u
  | None => true
  end &&
  match query_value role with
  | Some r => field_is (Notification.role n) r
  | None => true
  end.

(** [list_notifications] answers the matching documents sorted by
    [created_at], newest first.  The store fixes no order among documents of
    equal [created_at], so the route is a relation between the store and the
    answers it may give. *)
Definition list_notifications (user_id role : option string) (s : Store)
  (out : list NotificationOut.t) : Prop :=
  Permutation
    (map with_id_notification
       (filter (notifications_query user_id role) (notification s)))
    out /\
  StronglySorted
    (fun a b => NotificationOut.created_at b <= NotificationOut.created_at a)
    out.

(** The requests that write to the store.  The [GET] routes only read. *)
Inductive Request :=
| POST_users (u : UserIn)
| POST_suppliers (sp : SupplierIn)
| POST_items (it : ItemIn)
| POST_prs (pr : PRCreate)
| POST_prs_decision (pr_id : string) (decision : PRDecision)
| POST_pos (data : POCreate)
| POST_grs (data : GRCreate)
| POST_notifications_read (notif_id : string).

Definition handle (now : Time) (r : Request) : Handler Response :=
  match r with
  | POST_users u => create_user now u
  | POST_suppliers sp => create_supplier now sp
  | POST_items it => create_item now it
  | POST_prs pr => create_pr now pr
  | POST_prs_decision pr_id decision => decide_pr now pr_id decision
  | POST_pos data => create_po now data
  | POST_grs data => create_gr now data
  | POST_notifications_read notif_id => mark_notification_read now notif_id
  end.

(** The store after a sequence of requests, each served at its own time;
    a request that raises leaves what it wrote before raising. *)
Fixpoint run (reqs : list (Time * Request)) (s : Store) : Store :=
  match reqs with
  | [] => s
  | (now, r) :: reqs' => run reqs' (snd (handle now r s))
  end.

End Api.

(** ** A concrete identifier format

    The examples use identifiers written as [bson] prints them: 24
    hexadecimal digits.  Upper-case digits are accepted when reading. *)

Module Hex.

Definition digit_value (c : ascii) : option N :=
  let n := N_of_ascii c in
  if (48 <=? n)%N && (n <=? 57)%N then Some (n - 48)%N
  else if (97 <=? n)%N && (n <=? 102)%N then Some (n - 87)%N
  else if (65 <=? n)%N && (n <=? 70)%N then Some (n - 55)%N
  else None.

Fixpoint value (s : string) (acc : N) : option N :=
  match s with
  | EmptyString => Some acc
  | String c s' =>
      match digit_value c with
      | Some d => value s' (16 * acc + d)%N
      | None => None
      end
  end.

Definition parse (s : string) : option ObjectId :=
  if Nat.eqb (String.length s) 24 then value s 0%N else None.

Definition digit (n : N) : ascii :=
  match String.get (N.to_nat n) "0123456789abcdef" with
  | Some c => c
  | None => "0"%char
  end.

Fixpoint digits (k : nat) (n : N) (acc : string) : string :=
  match k with
  | O => acc
  | S k' => digits k' (n / 16)%N (String (digit (n mod 16)%N) acc)
  end.

Definition print (o : ObjectId) : string := digits 24 o "".

Definition codec : ObjectIdCodec :=
  {| ObjectId_of_str := parse; str := print |}.

End Hex.

Example hex_print_10 : Hex.print 10%N = "00000000000000000000000a".
Proof. reflexivity. Qed.

Example hex_parse_upper : Hex.parse "00000000000000000000000A" = Some 10%N.
Proof. reflexivity. Qed.

Example hex_parse_bad : Hex.parse "not-an-id" = None.
Proof. reflexivity. Qed.

(** A concrete [sum], used for the examples: the one of Python up to 3.11,
    which adds from left to right starting from 0.  On the lists of the
    examples the compensated sum of later versions gives the same floats. *)
Definition left_sum (l : list float) : float :=
  fold_left PrimFloat.add l 0%float.

(** ** Notions used by the statements *)

(** The edges of the status machine of a purchase request. *)
Inductive pr_edge : string -> string -> Prop :=
| pr_edge_approve : pr_edge PR_SUBMITTED PR_APPROVED
| pr_edge_reject : pr_edge PR_SUBMITTED PR_REJECTED
| pr_edge_order : pr_edge PR_APPROVED PR_ORDERED.

(** One request either keeps a status or follows one edge. *)
Definition pr_step (a b : string) : Prop := b = a \/ pr_edge a b.

(** Every document of [l] is still at its place in [l'], its status moved
    by at most one edge. *)
Definition prs_evolve (l l' : list PurchaseRequest.t) : Prop :=
  forall i p, nth_error l i = Some p ->
    exists p', nth_error l' i = Some p' /\
      pr_step (PurchaseRequest.status p) (PurchaseRequest.status p').

(** Adding the quantities of a list to [a], one after the other, in
    doubles. *)
Definition fold_add (a : float) (l : list float) : float :=
  fold_left PrimFloat.add l a.

(** The receipts stored under an identifier string, as [create_gr] looks
    them up, and the quantity their lines add up to: the lines are taken
    receipt by receipt in the order of the store and added from [0.0]. *)
Definition receipts_of (po_id : string) (s : Store) : list GoodsReceipt.t :=
  filter (fun g => String.eqb (GoodsReceipt.po_id g) po_id) (goodsreceipt s).

Definition received_total (po_id : string) (s : Store) : float :=
  fold_add 0%float
    (map GRLine.qty_received
       (flat_map GoodsReceipt.lines (receipts_of po_id s))).

(** The receipts of a purchase order: those whose [po_id] designates the
    identifier [o] of the order, under whatever string; and the quantity
    their lines add up to. *)
Definition designates (bson : ObjectIdCodec) (id_str : string) (o : ObjectId)
  : bool :=
  match ObjectId_of_str bson id_str with
  | Some o' => N.eqb o' o
  | None => false
  end.

Definition receipts_for_po (bson : ObjectIdCodec) (o : ObjectId) (s : Store)
  : list GoodsReceipt.t :=
  filter (fun g => designates bson (GoodsReceipt.po_id g) o) (goodsreceipt s).

Definition received_for_po (bson : ObjectIdCodec) (o : ObjectId) (s : Store)
  : float :=
  fold_add 0%float
    (map GRLine.qty_received
       (flat_map GoodsReceipt.lines (receipts_for_po bson o s))).

(** The on-hand quantity stored for a SKU, in the record the store finds
    first; [on_hand_of] reads a SKU without a record as the baseline 0. *)
Definition stock (sku : string) (inv : list Inventory.t) : option float :=
  option_map Inventory.on_hand
    (find (fun d => String.eqb (Inventory.sku d) sku) inv).

Definition on_hand_of (sku : string) (inv : list Inventory.t) : float :=
  match find (fun d => String.eqb (Inventory.sku d) sku) inv with
  | Some d => Inventory.on_hand d
  | None => 0%float
  end.

(** The upsert of [create_gr] applied for each quantity of a list in turn:
    a stored quantity is incremented in doubles, and on a SKU without a
    record the quantity itself is stored. *)
Definition inc_all (h : option float) (qs : list float) : option float :=
  fold_left
    (fun h q => Some match h with
                     | Some x => PrimFloat.add x q
                     | None => q
                     end)
    qs h.

(** The quantities that a list of receipt lines posts for a SKU, in the
    order of the lines; and those of all receipts of the store, in the order
    of the receipts. *)
Definition quantities_for (sku : string) (lines : list GRLine.t) : list float :=
  map GRLine.qty_received
    (filter (fun l => String.eqb (GRLine.sku l) sku) lines).

Definition posted_quantities (sku : string) (s : Store) : list float :=
  quantities_for sku (flat_map GoodsReceipt.lines (goodsreceipt s)).

(** A quantity that is zero or more; NaN is not. *)
Definition nonneg (x : float) : Prop := PrimFloat.leb 0%float x = true.

(** The same on the specification of binary64 floats. *)
Definition sf_nonneg (x : spec_float) : bool :=
  match x with
  | S754_zero _ => true
  | S754_infinity s => negb s
  | S754_finite s _ _ => negb s
  | S754_nan => false
  end.

(** The effect of one iteration of the inventory loop of [create_gr] on the
    inventory collection and on the identifier supply. *)
Definition post_line (st : list Inventory.t * ObjectId) (line : GRLine.t)
  : list Inventory.t * ObjectId :=
  let q := fun d => String.eqb (Inventory.sku d) (GRLine.sku line) in
  if existsb q (fst st)
  then (update_first q (inc_on_hand (GRLine.qty_received line)) (fst st), snd st)
  else ((fst st ++ [Inventory.mk (snd st) (GRLine.sku line)
                      (GRLine.qty_received line) (GRLine.uom line) None])%list,
        N.succ (snd st)).

(** The store after the writes of [create_gr] that come before the
    notification: the receipt is recorded, the inventory loop has run and
    the status of the purchase order [po], found under [o], is set. *)
Definition gr_posted (py_sum : list float -> float) (now : Time)
  (data : GRCreate) (po : PurchaseOrder.t) (o : ObjectId) (s : Store) : Store :=
  let gr := GoodsReceipt.mk (next_oid s) (grc_po_id data) (grc_lines data) now in
  let st := fold_left post_line (grc_lines data)
              (inventory s, N.succ (next_oid s)) in
  let grs := filter (fun g => String.eqb (GoodsReceipt.po_id g) (grc_po_id data))
               (goodsreceipt s ++ [gr]) in
  let new_status :=
    if PrimFloat.leb (total_po_qty py_sum po) (total_received grs)
    then PO_RECEIVED else PO_PARTIALLY_RECEIVED in
  set_purchaseorder
    (update_first (fun d => N.eqb (PurchaseOrder._id d) o)
       (set_po_status new_status) (purchaseorder s))
    (set_inventory (fst st)
       (set_next_oid (snd st)
          (set_goodsreceipt (goodsreceipt s ++ [gr]) s))).

Definition invalid_id : HTTPException :=
  {| status_code := 400; detail := "Invalid id format" |}.

(** Notifications addressed to one user, and broadcast to one role. *)
Definition to_one_user (n : Notification.t) : Prop :=
  Notification.read n = false /\
  (exists u, Notification.to_user_id n = Some u) /\
  Notification.role n = None.

Definition to_role (r : string) (n : Notification.t) : Prop :=
  Notification.read n = false /\
  Notification.to_user_id n = None /\
  Notification.role n = Some r.

Definition conflict : HTTPException :=
  {| status_code := 400; detail := "PR is not pending approval" |}.

(** Every purchase order of [l] is still at its place in [l'], with the
    lines it had. *)
Definition pos_keep_lines (l l' : list PurchaseOrder.t) : Prop :=
  forall i po, nth_error l i = Some po ->
    exists po', nth_error l' i = Some po' /\
      PurchaseOrder.lines po' = PurchaseOrder.lines po.

(** Field by field, a purchase-order line carries what a purchase-request
    line carries. *)
Definition same_line (l : PRLine.t) (l' : POLine.t) : Prop :=
  POLine.sku l' = PRLine.sku l /\
  POLine.name l' = PRLine.name l /\
  POLine.qty l' = PRLine.qty l /\
  POLine.uom l' = PRLine.uom l.

(** The status that the spec's property P5 derives from the ordered total
    [T] and the received total [R]: "received" iff R >= T, else
    "partially_received" if R > 0, else "sent".  This definition follows the
    words of the spec, not the code. *)
Definition spec_po_status (T R : float) : string :=
  if PrimFloat.leb T R then PO_RECEIVED
  else if PrimFloat.ltb 0%float R then PO_PARTIALLY_RECEIVED
  else PO_SENT.

(** The user that the validation of [create_pr] finds for an identifier
    string and a role, if any. *)
Definition user_with_role (bson : ObjectIdCodec) (role id_str : string)
  (s : Store) : option User.t :=
  match ObjectId_of_str bson id_str with
  | Some o =>
      find (fun u => N.eqb (User._id u) o && String.eqb (User.role u) role)
           (user s)
  | None => None
  end.

(** Inventory conservation: the on-hand quantity stored for a SKU is what
    the quantities posted for it by all recorded receipts, taken in order,
    add up to in doubles, starting from the 0 of [create_item] or, without
    it, from the first quantity. *)
Definition conserved (s : Store) : Prop :=
  forall sku, exists b,
    (b = None \/ b = Some 0%float) /\
    stock sku (inventory s) = inc_all b (posted_quantities sku s).

(** ** Example data

    Scenario A of the spec, request by request, from the empty store.  The
    identifiers are the ones the store hands out: 0 and 1 for the users, 2
    for the supplier, 3 for the purchase request, 6 for the purchase order
    (4, 5 and 7 go to notifications). *)

Definition id_E := "000000000000000000000000".
Definition id_M := "000000000000000000000001".
Definition id_S1 := "000000000000000000000002".
Definition id_PR := "000000000000000000000003".
Definition id_N := "000000000000000000000004".
Definition id_PO := "000000000000000000000006".
Definition id_GR := "000000000000000000000008".

Definition user_E : UserIn :=
  {| ui_name := "E"; ui_email := "e@example.org"; ui_role := "employee";
     ui_department := None; ui_manager_id := Some id_M |}.

Definition user_M : UserIn :=
  {| ui_name := "M"; ui_email := "m@example.org"; ui_role := "manager";
     ui_department := None; ui_manager_id := None |}.

Definition supplier_S1 : SupplierIn :=
  {| si_name := "S1"; si_code := "S1"; si_contact_email := None;
     si_phone := None; si_address := None |}.

Definition pr_A1 : PRCreate :=
  {| prc_employee_id := id_E; prc_manager_id := id_M; prc_reason := None;
     prc_lines := [PRLine.mk "A1" "Widget" 5 "pcs"] |}.

Definition pr_no_lines : PRCreate :=
  {| prc_employee_id := id_E; prc_manager_id := id_M; prc_reason := None;
     prc_lines := [] |}.

Definition approve_by_M : PRDecision :=
  {| prd_manager_id := id_M; prd_approve := true; prd_rejected_reason := None |}.

Definition po_A1 : POCreate := {| poc_pr_id := id_PR; poc_supplier_id := id_S1 |}.

Definition gr_no_lines : GRCreate := {| grc_po_id := id_PO; grc_lines := [] |}.

Definition gr_A1 (q : float) : GRCreate :=
  {| grc_po_id := id_PO; grc_lines := [GRLine.mk "A1" "Widget" q "pcs"] |}.

Definition setup_requests : list (Time * Request) :=
  [(1, POST_users user_E); (2, POST_users user_M);
   (3, POST_suppliers supplier_S1)].

Definition master_store : Store := run Hex.codec left_sum setup_requests empty_store.

Definition submitted_store : Store :=
  run Hex.codec left_sum [(4, POST_prs pr_A1)] master_store.

Definition approved_store : Store :=
  run Hex.codec left_sum [(5, POST_prs_decision id_PR approve_by_M)] submitted_store.

Definition ordered_store : Store :=
  run Hex.codec left_sum [(6, POST_pos po_A1)] approved_store.

Definition partly_received_store : Store :=
  run Hex.codec left_sum [(9, POST_grs (gr_A1 4))] ordered_store.

Definition no_lines_store : Store :=
  run Hex.codec left_sum [(9, POST_grs gr_no_lines)] ordered_store.

Definition negative_store : Store :=
  run Hex.codec left_sum [(9, POST_grs (gr_A1 (-5)))] ordered_store.

Definition completed_store : Store :=
  run Hex.codec left_sum [(12, POST_grs (gr_A1 1))] partly_received_store.

Definition submitted_pr : PurchaseRequest.t :=
  PurchaseRequest.mk 3%N id_E id_M None [PRLine.mk "A1" "Widget" 5 "pcs"]
    PR_SUBMITTED None None None None 4.

Definition ordered_pr : PurchaseRequest.t :=
  PurchaseRequest.mk 3%N id_E id_M None [PRLine.mk "A1" "Widget" 5 "pcs"]
    PR_ORDERED (Some id_M) (Some 5) None (Some id_PO) 4.

Definition sent_po (pr_id : string) : PurchaseOrder.t :=
  PurchaseOrder.mk 6%N pr_id id_S1 [POLine.mk "A1" "Widget" 5 "pcs"] PO_SENT 6.

(** A store in which the employee of identifier 0 has been deactivated. *)
Definition inactive_employee_store : Store :=
  set_user
    [User.mk 0%N "E" "e@example.org" "employee" None (Some id_M) false 1;
     User.mk 1%N "M" "m@example.org" "manager" None None true 2]
    master_store.

(** A store holding one purchase order whose purchase request is gone. *)
Definition orphan_po_store (pr_id : string) : Store :=
  set_next_oid 7%N (set_purchaseorder [sent_po pr_id] empty_store).

(** The identifier that a request looks up first, if it looks one up. *)
Definition primary_id (r : Request) : option string :=
  match r with
  | POST_prs pr => Some (prc_employee_id pr)
  | POST_prs_decision pr_id _ => Some pr_id
  | POST_pos data => Some (poc_pr_id data)
  | POST_grs data => Some (grc_po_id data)
  | POST_notifications_read notif_id => Some notif_id
  | _ => None
  end.

Definition is_POST_grs (r : Request) : bool :=
  match r with
  | POST_grs _ => true
  | _ => false
  end.

(** The reason that [decide_pr] stores on a rejection:
    [decision.rejected_reason or ""]. *)
Definition reason_or_empty (decision : PRDecision) : string :=
  match prd_rejected_reason decision with
  | Some r => r
  | None => ""
  end.

(** Identifiers that are pairwise distinct and were all handed out before
    [n]. *)
Definition fresh_ids (ids : list ObjectId) (n : ObjectId) : Prop :=
  NoDup ids /\ Forall (fun i => (i < n)%N) ids.

Definition ids_fresh (s : Store) : Prop :=
  fresh_ids (map PurchaseRequest._id (purchaserequest s)) (next_oid s) /\
  fresh_ids (map PurchaseOrder._id (purchaseorder s)) (next_oid s) /\
  fresh_ids (map Notification._id (notification s)) (next_oid s).

(** Exactly one of [to_user_id] and [role] is set. *)
Definition one_target (n : Notification.t) : Prop :=
  (Notification.to_user_id n <> None /\ Notification.role n = None) \/
  (Notification.to_user_id n = None /\ Notification.role n <> None).


(** Further example data: scenario C of the spec on top of scenario A, the
    notifications of scenario A, and a store with a hundred users. *)

Definition scenario_requests : list (Time * Request) :=
  (setup_requests ++
   [(4, POST_prs pr_A1); (5, POST_prs_decision id_PR approve_by_M);
    (6, POST_pos po_A1); (9, POST_grs (gr_A1 4))])%list.

Definition A1_record : Inventory.t := Inventory.mk 9%N "A1" 4 "pcs" None.

Definition submission_notification : Notification.t :=
  Notification.mk 4%N (Some id_M) None "New Purchase Request"
    "PR 000000000000000000000003 awaiting your approval"
    (Some "PR") (Some id_PR) false 4 None.

Definition approval_notification : Notification.t :=
  Notification.mk 5%N None (Some "purchasing") "PR Approved"
    "PR 000000000000000000000003 is ready for PO"
    (Some "PR") (Some id_PR) false 5 None.

Definition decision_by_E : PRDecision :=
  {| prd_manager_id := id_E; prd_approve := true; prd_rejected_reason := None |}.

Definition po_malformed : POCreate :=
  {| poc_pr_id := "not-an-id"; poc_supplier_id := id_S1 |}.

Definition crowded_store : Store :=
  set_user
    (repeat (User.mk 0%N "E" "e@example.org" "employee" None None true 1) 100)
    empty_store.


(** * Properties *)

Section Properties.

Variable bson : ObjectIdCodec.
Variable py_sum : list float -> float.

(** ** Lists and the store primitives *)

Lemma update_first_length {D} (q : D -> bool) u l :
  List.length (update_first q u l) = List.length l.
Proof.
  induction l as [|d l IH]; simpl; [reflexivity|].
  destruct (q d); simpl; congruence.
Qed.

Lemma update_first_absent {D} (q : D -> bool) u l :
  find q l = None -> update_first q u l = l.
Proof.
  induction l as [|d l IH]; simpl; [reflexivity|].
  destruct (q d); [discriminate|].
  intros H. now rewrite IH.
Qed.

Lemma nth_error_update_first {D} (q : D -> bool) u l i d :
  nth_error l i = Some d ->
  nth_error (update_first q u l) i = Some d \/
  (find q l = Some d /\ nth_error (update_first q u l) i = Some (u d)).
Proof.
  revert i. induction l as [|x l IH]; intros i H.
  - destruct i; discriminate.
  - simpl. destruct (q x) eqn:Hq.
    + destruct i as [|i]; simpl in *.
      * inversion H; subst. right. split; reflexivity.
      * left. exact H.
    + destruct i as [|i]; simpl in *.
      * left. exact H.
      * destruct (IH i H) as [Hs | [Hf Hu]]; [left | right]; auto.
Qed.

Lemma find_update_first {D} (q : D -> bool) u l :
  (forall d, q d = true -> q (u d) = true) ->
  find q (update_first q u l) = option_map u (find q l).
Proof.
  intros Hu. induction l as [|x l IH]; simpl; [reflexivity|].
  destruct (q x) eqn:Hq; simpl.
  - now rewrite (Hu x Hq).
  - now rewrite Hq.
Qed.

Lemma find_update_first_other {D} (q q2 : D -> bool) u l :
  (forall d, q d = true -> q2 d = false) ->
  (forall d, q2 (u d) = q2 d) ->
  find q2 (update_first q u l) = find q2 l.
Proof.
  intros Hd Hu. induction l as [|x l IH]; simpl; [reflexivity|].
  destruct (q x) eqn:Hq; simpl.
  - rewrite Hu, (Hd x Hq). reflexivity.
  - destruct (q2 x); [reflexivity | exact IH].
Qed.

Lemma find_app {D} (q : D -> bool) l l' :
  find q (l ++ l') =
  match find q l with Some d => Some d | None => find q l' end.
Proof.
  induction l as [|x l IH]; simpl; [reflexivity|].
  destruct (q x); [reflexivity | exact IH].
Qed.

Lemma find_existsb_false {D} (q : D -> bool) l :
  existsb q l = false -> find q l = None.
Proof.
  induction l as [|x l IH]; simpl; [reflexivity|].
  destruct (q x); simpl; [discriminate | exact IH].
Qed.

Lemma find_existsb_true {D} (q : D -> bool) l :
  existsb q l = true -> find q l <> None.
Proof.
  induction l as [|x l IH]; simpl; [discriminate|].
  destruct (q x); simpl; [discriminate | exact IH].
Qed.

Lemma store_eta (s : Store) :
  set_inventory (inventory s) (set_next_oid (next_oid s) s) = s.
Proof. destruct s; reflexivity. Qed.

(** The inventory loop of [create_gr] never raises and writes only to the
    inventory and to the identifier supply. *)
Lemma for_each_post_lines (lines : list GRLine.t) (s : Store) :
  for_each lines
    (fun line =>
       update_one_upsert db_inventory
         (fun d => String.eqb (Inventory.sku d) (GRLine.sku line))
         (inc_on_hand (GRLine.qty_received line))
         (fun o => Inventory.mk o (GRLine.sku line) (GRLine.qty_received line)
                     (GRLine.uom line) None)) s
  = (Returned tt,
     let st := fold_left post_line lines (inventory s, next_oid s) in
     set_inventory (fst st) (set_next_oid (snd st) s)).
Proof.
  revert s. induction lines as [|line lines IH]; intros s.
  - simpl. unfold ret. now rewrite store_eta.
  - cbn [for_each fold_left]. unfold bind at 1.
    unfold update_one_upsert at 1, update_one, bind, fresh_oid, insert_one.
    cbn [docs put_docs db_inventory].
    replace (post_line (inventory s, next_oid s) line) with
      (if existsb (fun d => String.eqb (Inventory.sku d) (GRLine.sku line))
            (inventory s)
       then (update_first
               (fun d => String.eqb (Inventory.sku d) (GRLine.sku line))
               (inc_on_hand (GRLine.qty_received line)) (inventory s),
             next_oid s)
       else ((inventory s ++
                [Inventory.mk (next_oid s) (GRLine.sku line)
                   (GRLine.qty_received line) (GRLine.uom line) None])%list,
             N.succ (next_oid s))) by reflexivity.
    destruct (existsb _ (inventory s)); rewrite IH; reflexivity.
Qed.

(** ** Status machine of a purchase request *)

Lemma pr_step_refl a : pr_step a a.
Proof. now left. Qed.

Lemma prs_evolve_refl l : prs_evolve l l.
Proof. intros i p H. exists p. split; [exact H | apply pr_step_refl]. Qed.

Lemma prs_evolve_append l x : prs_evolve l (l ++ x).
Proof.
  intros i p H. exists p. split; [|apply pr_step_refl].
  rewrite nth_error_app1; [exact H|].
  apply nth_error_Some. congruence.
Qed.

Lemma prs_evolve_update q u l d :
  find q l = Some d ->
  pr_edge (PurchaseRequest.status d) (PurchaseRequest.status (u d)) ->
  prs_evolve l (update_first q u l).
Proof.
  intros Hf He i p H.
  destruct (nth_error_update_first q u l i p H) as [Hs | [Hf' Hu]].
  - exists p. split; [exact Hs | apply pr_step_refl].
  - exists (u p). split; [exact Hu|].
    right. rewrite Hf in Hf'. inversion Hf'; subst. exact He.
Qed.

Ltac unfold_store_ops :=
  unfold create_document, oid, find_one, find_all, update_one, insert_one,
    fresh_oid, bind, ret, raise in *;
  cbn [docs put_docs db_user db_supplier db_item db_inventory
       db_purchaserequest db_purchaseorder db_goodsreceipt db_notification
       fst snd] in *.

Lemma create_pr_prs_evolve now pr s :
  prs_evolve (purchaserequest s) (purchaserequest (snd (create_pr bson now pr s))).
Proof.
  unfold create_pr. unfold_store_ops.
  destruct (ObjectId_of_str bson (prc_employee_id pr)); [|apply prs_evolve_refl].
  destruct (find _ (user s)); [|apply prs_evolve_refl].
  destruct (ObjectId_of_str bson (prc_manager_id pr)); [|apply prs_evolve_refl].
  destruct (find _ (user s)); [|apply prs_evolve_refl].
  cbn. apply prs_evolve_append.
Qed.

Lemma decide_pr_prs_evolve now pr_id decision s :
  prs_evolve (purchaserequest s)
    (purchaserequest (snd (decide_pr bson now pr_id decision s))).
Proof.
  unfold decide_pr. unfold_store_ops.
  destruct (ObjectId_of_str bson pr_id) as [o|]; [|apply prs_evolve_refl].
  destruct (find _ (purchaserequest s)) as [pr_doc|] eqn:Hfind;
    [|apply prs_evolve_refl].
  destruct (negb (String.eqb _ (prd_manager_id decision)));
    [apply prs_evolve_refl|].
  cbn [existsb]. rewrite orb_false_r.
  destruct (String.eqb (PurchaseRequest.status pr_doc) PR_SUBMITTED) eqn:Hst;
    [|apply prs_evolve_refl].
  apply String.eqb_eq in Hst.
  destruct (prd_approve decision); cbn;
    (eapply prs_evolve_update; [exact Hfind|]); cbn; rewrite Hst; constructor.
Qed.

Lemma create_po_prs_evolve now data s :
  prs_evolve (purchaserequest s) (purchaserequest (snd (create_po bson now data s))).
Proof.
  unfold create_po. unfold_store_ops.
  destruct (ObjectId_of_str bson (poc_pr_id data)) as [o|];
    [|apply prs_evolve_refl].
  destruct (find _ (purchaserequest s)) as [pr_doc|] eqn:Hfind;
    [|apply prs_evolve_refl].
  destruct (String.eqb (PurchaseRequest.status pr_doc) PR_APPROVED) eqn:Hst;
    [|apply prs_evolve_refl].
  apply String.eqb_eq in Hst. cbn [negb].
  destruct (ObjectId_of_str bson (poc_supplier_id data)); [|apply prs_evolve_refl].
  destruct (find _ (supplier s)); [|apply prs_evolve_refl].
  cbn. eapply prs_evolve_update; [exact Hfind|].
  cbn. rewrite Hst. constructor.
Qed.

(** [create_gr] in closed form. *)
Lemma create_gr_unfold now data s :
  create_gr bson py_sum now data s =
  match ObjectId_of_str bson (grc_po_id data) with
  | None => (Raised invalid_id, s)
  | Some o =>
    match find (fun d => N.eqb (PurchaseOrder._id d) o) (purchaseorder s) with
    | None => (Raised {| status_code := 404; detail := "PO not found" |}, s)
    | Some po =>
      let s3 := gr_posted py_sum now data po o s in
      let gr_id := str bson (next_oid s) in
      match ObjectId_of_str bson (PurchaseOrder.pr_id po) with
      | None => (Raised invalid_id, s3)
      | Some p =>
        match find (fun d => N.eqb (PurchaseRequest._id d) p)
                (purchaserequest s) with
        | None => (Returned (IdResponse gr_id), s3)
        | Some pr_doc =>
            (Returned (IdResponse gr_id),
             set_notification
               (notification s ++
                [new_notification (Some (PurchaseRequest.employee_id pr_doc))
                   None "Goods Received"
                   ("GR " ++ gr_id ++ " recorded and inventory updated")
                   "GR" gr_id (next_oid s3) now])
               (set_next_oid (N.succ (next_oid s3)) s3))
        end
      end
    end
  end.
Proof.
  unfold create_gr.
  unfold bind at 1. unfold oid at 1.
  destruct (ObjectId_of_str bson (grc_po_id data)) as [o|] eqn:Hpo;
    [|reflexivity].
  unfold ret at 1. unfold bind at 1. unfold find_one at 1.
  cbn [docs db_purchaseorder].
  destruct (find _ (purchaseorder s)) as [po|]; [|reflexivity].
  unfold bind at 1. unfold create_document at 1. unfold_store_ops.
  rewrite for_each_post_lines. cbn zeta. rewrite Hpo.
  unfold gr_posted.
  cbn [inventory next_oid goodsreceipt purchaseorder purchaserequest
       notification set_purchaseorder set_inventory set_next_oid
       set_goodsreceipt].
  destruct (fold_left post_line _ _) as [inv n]. cbn [fst snd].
  destruct (ObjectId_of_str bson (PurchaseOrder.pr_id po)); [|reflexivity].
  cbn [inventory next_oid goodsreceipt purchaseorder purchaserequest
       notification set_purchaseorder set_inventory set_next_oid
       set_goodsreceipt].
  destruct (find _ (purchaserequest s)); reflexivity.
Qed.

(** [create_gr] never writes to the purchase requests. *)
Lemma create_gr_purchaserequest now data s :
  purchaserequest (snd (create_gr bson py_sum now data s)) = purchaserequest s.
Proof.
  rewrite create_gr_unfold.
  destruct (ObjectId_of_str bson (grc_po_id data)); [|reflexivity].
  destruct (find _ (purchaseorder s)) as [po|]; [|reflexivity].
  cbn zeta.
  destruct (ObjectId_of_str bson (PurchaseOrder.pr_id po)); [|reflexivity].
  destruct (find _ (purchaserequest s)); reflexivity.
Qed.

Lemma handle_prs_evolve now r s :
  prs_evolve (purchaserequest s) (purchaserequest (snd (handle bson py_sum now r s))).
Proof.
  destruct r; cbn [handle].
  - apply prs_evolve_refl.
  - apply prs_evolve_refl.
  - unfold create_item. unfold_store_ops.
    destruct (find _ (inventory _)); apply prs_evolve_refl.
  - apply create_pr_prs_evolve.
  - apply decide_pr_prs_evolve.
  - apply create_po_prs_evolve.
  - rewrite create_gr_purchaserequest. apply prs_evolve_refl.
  - unfold mark_notification_read. unfold_store_ops.
    destruct (ObjectId_of_str bson notif_id); apply prs_evolve_refl.
Qed.

Lemma run_app reqs reqs' s :
  run bson py_sum (reqs ++ reqs') s = run bson py_sum reqs' (run bson py_sum reqs s).
Proof.
  revert s. induction reqs as [|[now r] reqs IH]; intros s; simpl;
    [reflexivity | apply IH].
Qed.

Lemma pr_edge_source a b :
  pr_edge a b -> a <> PR_REJECTED /\ a <> PR_ORDERED.
Proof. intros H; inversion H; split; discriminate. Qed.

Lemma pr_step_terminal a b :
  pr_step a b -> a = PR_REJECTED \/ a = PR_ORDERED -> b = a.
Proof.
  intros [H | H] Ha; [exact H|].
  apply pr_edge_source in H. destruct H as [Hr Ho].
  destruct Ha; contradiction.
Qed.

(** A document stays at its index along a run, and a final status stays. *)
Lemma run_keeps_pr reqs s i p :
  nth_error (purchaserequest s) i = Some p ->
  exists p', nth_error (purchaserequest (run bson py_sum reqs s)) i = Some p' /\
    (PurchaseRequest.status p = PR_REJECTED \/
     PurchaseRequest.status p = PR_ORDERED ->
     PurchaseRequest.status p' = PurchaseRequest.status p).
Proof.
  revert s p. induction reqs as [|[now r] reqs IH]; intros s p H.
  - exists p. split; [exact H | reflexivity].
  - simpl. destruct (handle_prs_evolve now r s i p H) as [p1 [H1 Hstep]].
    destruct (IH _ _ H1) as [p' [H' Hfin]].
    exists p'. split; [exact H'|].
    intros Ha. pose proof (pr_step_terminal _ _ Hstep Ha) as E.
    rewrite <- E. apply Hfin. rewrite E. exact Ha.
Qed.

(** C1. Along every sequence of requests, each purchase request keeps its
    place in the collection, and each request of the sequence either keeps
    its status or moves it along one of the edges submitted -> approved,
    submitted -> rejected, approved -> ordered; a purchase request that is
    rejected or ordered keeps that status whatever requests follow. *)
Theorem pr_status_monotonic reqs now r s i p :
  nth_error (purchaserequest s) i = Some p ->
  exists p1 p2,
    nth_error (purchaserequest (run bson py_sum reqs s)) i = Some p1 /\
    nth_error (purchaserequest (run bson py_sum (reqs ++ [(now, r)]) s)) i = Some p2 /\
    pr_step (PurchaseRequest.status p1) (PurchaseRequest.status p2) /\
    (PurchaseRequest.status p = PR_REJECTED \/
     PurchaseRequest.status p = PR_ORDERED ->
     PurchaseRequest.status p2 = PurchaseRequest.status p).
Proof.
  intros H.
  destruct (run_keeps_pr reqs s i p H) as [p1 [H1 _]].
  destruct (run_keeps_pr (reqs ++ [(now, r)]) s i p H) as [p2 [H2 Hfin]].
  exists p1, p2. repeat split; try assumption.
  rewrite run_app in H2. simpl in H2.
  destruct (handle_prs_evolve now r _ i p1 H1) as [p2' [H2' Hstep]].
  rewrite H2 in H2'. inversion H2'; subst. exact Hstep.
Qed.

(** ** Decisions *)

Lemma set_approved_id by_ now d :
  PurchaseRequest._id (set_approved by_ now d) = PurchaseRequest._id d.
Proof. reflexivity. Qed.

(** C6. When the assigned manager decides on a purchase request that is not
    in status submitted, the call raises the 400 error of a conflict and the
    store is left as it was.  And when the request is submitted, the decision
    succeeds, after which every further decision on it raises and leaves the
    store as it was: with the error of a conflict when it comes from the
    assigned manager. *)
Theorem decide_pr_single_decision now pr_id decision s o p :
  ObjectId_of_str bson pr_id = Some o ->
  find (fun d => N.eqb (PurchaseRequest._id d) o) (purchaserequest s) = Some p ->
  PurchaseRequest.manager_id p = prd_manager_id decision ->
  (PurchaseRequest.status p <> PR_SUBMITTED ->
   decide_pr bson now pr_id decision s = (Raised conflict, s)) /\
  (PurchaseRequest.status p = PR_SUBMITTED ->
   exists s',
     decide_pr bson now pr_id decision s = (Returned OkResponse, s') /\
     forall now2 decision2, exists e,
       decide_pr bson now2 pr_id decision2 s' = (Raised e, s') /\
       (prd_manager_id decision2 = PurchaseRequest.manager_id p ->
        e = conflict)).
Proof.
  intros Hid Hfind Hmgr. split.
  - intros Hst. unfold decide_pr. unfold_store_ops.
    rewrite Hid, Hfind, Hmgr, String.eqb_refl. cbn [negb existsb].
    rewrite orb_false_r.
    destruct (String.eqb (PurchaseRequest.status p) PR_SUBMITTED) eqn:E.
    + apply String.eqb_eq in E. contradiction.
    + reflexivity.
  - intros Hst.
    assert (Hsecond : forall u s1 now2 decision2,
      (forall d, PurchaseRequest._id (u d) = PurchaseRequest._id d) ->
      PurchaseRequest.manager_id (u p) = PurchaseRequest.manager_id p ->
      String.eqb (PurchaseRequest.status (u p)) PR_SUBMITTED = false ->
      purchaserequest s1 =
        update_first (fun d => N.eqb (PurchaseRequest._id d) o) u
          (purchaserequest s) ->
      exists e,
        decide_pr bson now2 pr_id decision2 s1 = (Raised e, s1) /\
        (prd_manager_id decision2 = PurchaseRequest.manager_id p ->
         e = conflict)).
    { intros u s1 now2 decision2 Hu Hm Hs Hprs.
      unfold decide_pr. unfold_store_ops.
      rewrite Hid, Hprs, find_update_first, Hfind.
      - cbn [option_map]. rewrite Hm.
        destruct (String.eqb (PurchaseRequest.manager_id p)
                    (prd_manager_id decision2)) eqn:Em; cbn [negb].
        + cbn [existsb]. rewrite orb_false_r, Hs. cbn [negb].
          eexists. split; reflexivity.
        + eexists. split; [reflexivity|].
          intros Hd2. rewrite Hd2, String.eqb_refl in Em. discriminate.
      - intros d Hd. now rewrite Hu. }
    assert (Em : String.eqb (PurchaseRequest.manager_id p)
                   (prd_manager_id decision) = true)
      by (apply String.eqb_eq; exact Hmgr).
    unfold decide_pr at 1. unfold_store_ops.
    rewrite Hid, Hfind, Em. cbn [negb existsb].
    rewrite orb_false_r, Hst.
    replace (String.eqb PR_SUBMITTED PR_SUBMITTED) with true by reflexivity.
    cbn [negb].
    destruct (prd_approve decision); eexists; (split; [reflexivity|]);
      intros now2 decision2.
    + apply (Hsecond (set_approved (prd_manager_id decision) now));
        reflexivity.
    + apply (Hsecond (set_rejected
                        match prd_rejected_reason decision with
                        | Some r => r
                        | None => ""
                        end));
        reflexivity.
Qed.

(** ** Notifications *)

Lemma set_notification_same s : set_notification (notification s) s = s.
Proof. destruct s; reflexivity. Qed.

(** C9. For a well-formed notification identifier, marking as read answers
    [{"ok": True}] whether or not a notification has that identifier.  When
    none has it the store is unchanged; when one has it, that notification
    is replaced by itself with [read] true and [updated_at] the current time,
    and every other notification stays as it was. *)
Theorem mark_notification_read_ok now notif_id s o :
  ObjectId_of_str bson notif_id = Some o ->
  let q := fun d => N.eqb (Notification._id d) o in
  let r := mark_notification_read bson now notif_id s in
  fst r = Returned OkResponse /\
  (find q (notification s) = None -> snd r = s) /\
  (forall n, find q (notification s) = Some n ->
     exists n',
       find q (notification (snd r)) = Some n' /\
       n' = set_read now n /\
       Notification.read n' = true /\
       Notification.updated_at n' = Some now /\
       forall i d, nth_error (notification s) i = Some d -> d <> n ->
         nth_error (notification (snd r)) i = Some d).
Proof.
  intros Hid q r. subst q r. unfold mark_notification_read. unfold_store_ops.
  rewrite Hid. cbn [fst snd]. split; [reflexivity|]. split.
  - intros Hnone. rewrite (update_first_absent _ _ _ Hnone).
    apply set_notification_same.
  - intros n Hn. exists (set_read now n). cbn [notification set_notification].
    split; [|split; [reflexivity | split; [reflexivity | split; [reflexivity|]]]].
    + rewrite find_update_first; [now rewrite Hn | auto].
    + intros i d Hd Hneq.
      destruct (nth_error_update_first
                  (fun d => N.eqb (Notification._id d) o) (set_read now)
                  _ i d Hd)
        as [Hs | [Hf _]]; [exact Hs|].
      rewrite Hn in Hf. inversion Hf. congruence.
Qed.

Lemma to_one_user_new u title message link_type link_id o t :
  to_one_user (new_notification (Some u) None title message link_type link_id o t).
Proof. repeat split. now exists u. Qed.

Lemma to_role_new r title message link_type link_id o t :
  to_role r (new_notification None (Some r) title message link_type link_id o t).
Proof. repeat split. Qed.

Ltac no_new :=
  exists []; cbn [fst snd]; split;
  [now rewrite app_nil_r
  |split; [constructor | first [reflexivity | cbn; lia]]].

(** C10. The notifications a workflow request adds come after the existing
    ones, are unread, and have exactly one of [to_user_id] and [role] set:
    the submission of a purchase request, its rejection, the creation of a
    purchase order and the creation of a goods receipt address one user, the
    approval addresses the role purchasing.  A submission, a decision and a
    purchase-order creation add one notification when they succeed and none
    when they raise; a goods receipt adds at most one. *)
Theorem workflow_notifications now s :
  (forall pr, exists new,
     notification (snd (create_pr bson now pr s)) = (notification s ++ new)%list /\
     Forall to_one_user new /\
     List.length new =
       match fst (create_pr bson now pr s) with
       | Returned _ => 1%nat
       | Raised _ => 0%nat
       end) /\
  (forall pr_id decision, exists new,
     notification (snd (decide_pr bson now pr_id decision s))
       = (notification s ++ new)%list /\
     Forall (fun n => if prd_approve decision
                      then to_role "purchasing" n else to_one_user n) new /\
     List.length new =
       match fst (decide_pr bson now pr_id decision s) with
       | Returned _ => 1%nat
       | Raised _ => 0%nat
       end) /\
  (forall data, exists new,
     notification (snd (create_po bson now data s)) = (notification s ++ new)%list /\
     Forall to_one_user new /\
     List.length new =
       match fst (create_po bson now data s) with
       | Returned _ => 1%nat
       | Raised _ => 0%nat
       end) /\
  (forall data, exists new,
     notification (snd (create_gr bson py_sum now data s)) = (notification s ++ new)%list /\
     Forall to_one_user new /\
     (List.length new <= 1)%nat).
Proof.
  repeat split.
  - intros pr. unfold create_pr. unfold_store_ops.
    destruct (ObjectId_of_str bson (prc_employee_id pr));
      [|no_new].
    destruct (find _ (user s));
      [|no_new].
    destruct (ObjectId_of_str bson (prc_manager_id pr));
      [|no_new].
    destruct (find _ (user s));
      [|no_new].
    cbn. eexists. split; [reflexivity|]. split; [|reflexivity].
    constructor; [apply to_one_user_new | constructor].
  - intros pr_id decision. unfold decide_pr. unfold_store_ops.
    destruct (ObjectId_of_str bson pr_id);
      [|no_new].
    destruct (find _ (purchaserequest s)) as [pr_doc|];
      [|no_new].
    destruct (negb (String.eqb _ (prd_manager_id decision)));
      [no_new|].
    destruct (negb (existsb _ _));
      [no_new|].
    destruct (prd_approve decision); cbn; eexists;
      (split; [reflexivity|]); (split; [|reflexivity]);
      (constructor; [|constructor]).
    + apply to_role_new.
    + apply to_one_user_new.
  - intros data. unfold create_po. unfold_store_ops.
    destruct (ObjectId_of_str bson (poc_pr_id data));
      [|no_new].
    destruct (find _ (purchaserequest s)) as [pr_doc|];
      [|no_new].
    destruct (negb (String.eqb _ PR_APPROVED));
      [no_new|].
    destruct (ObjectId_of_str bson (poc_supplier_id data));
      [|no_new].
    destruct (find _ (supplier s));
      [|no_new].
    cbn. eexists. split; [reflexivity|]. split; [|reflexivity].
    constructor; [apply to_one_user_new | constructor].
  - intros data. rewrite create_gr_unfold.
    destruct (ObjectId_of_str bson (grc_po_id data));
      [|no_new].
    destruct (find _ (purchaseorder s)) as [po|];
      [|no_new].
    cbn zeta.
    destruct (ObjectId_of_str bson (PurchaseOrder.pr_id po));
      [|no_new].
    destruct (find _ (purchaserequest s));
      [|no_new].
    cbn. eexists. split; [reflexivity|]. split; [|constructor].
    constructor; [apply to_one_user_new | constructor].
Qed.

(** ** Purchase orders *)

Lemma pos_keep_lines_refl l : pos_keep_lines l l.
Proof. intros i po H. exists po. split; [exact H | reflexivity]. Qed.

Lemma pos_keep_lines_append l x : pos_keep_lines l (l ++ x).
Proof.
  intros i po H. exists po. split; [|reflexivity].
  rewrite nth_error_app1; [exact H|].
  apply nth_error_Some. congruence.
Qed.

Lemma pos_keep_lines_status q st l :
  pos_keep_lines l (update_first q (set_po_status st) l).
Proof.
  intros i po H.
  destruct (nth_error_update_first q (set_po_status st) l i po H)
    as [Hs | [_ Hu]].
  - exists po. split; [exact Hs | reflexivity].
  - exists (set_po_status st po). split; [exact Hu | reflexivity].
Qed.

Lemma handle_pos_keep_lines now r s :
  pos_keep_lines (purchaseorder s) (purchaseorder (snd (handle bson py_sum now r s))).
Proof.
  destruct r; cbn [handle].
  - apply pos_keep_lines_refl.
  - apply pos_keep_lines_refl.
  - unfold create_item. unfold_store_ops.
    destruct (find _ (inventory _)); apply pos_keep_lines_refl.
  - unfold create_pr. unfold_store_ops.
    destruct (ObjectId_of_str bson (prc_employee_id pr));
      [|apply pos_keep_lines_refl].
    destruct (find _ (user s)); [|apply pos_keep_lines_refl].
    destruct (ObjectId_of_str bson (prc_manager_id pr));
      [|apply pos_keep_lines_refl].
    destruct (find _ (user s)); apply pos_keep_lines_refl.
  - unfold decide_pr. unfold_store_ops.
    destruct (ObjectId_of_str bson pr_id); [|apply pos_keep_lines_refl].
    destruct (find _ (purchaserequest s)); [|apply pos_keep_lines_refl].
    destruct (negb (String.eqb _ (prd_manager_id decision)));
      [apply pos_keep_lines_refl|].
    destruct (negb (existsb _ _)); [apply pos_keep_lines_refl|].
    destruct (prd_approve decision); apply pos_keep_lines_refl.
  - unfold create_po. unfold_store_ops.
    destruct (ObjectId_of_str bson (poc_pr_id data));
      [|apply pos_keep_lines_refl].
    destruct (find _ (purchaserequest s)); [|apply pos_keep_lines_refl].
    destruct (negb (String.eqb _ PR_APPROVED)); [apply pos_keep_lines_refl|].
    destruct (ObjectId_of_str bson (poc_supplier_id data));
      [|apply pos_keep_lines_refl].
    destruct (find _ (supplier s)); [|apply pos_keep_lines_refl].
    cbn. apply pos_keep_lines_append.
  - rewrite create_gr_unfold.
    destruct (ObjectId_of_str bson (grc_po_id data));
      [|apply pos_keep_lines_refl].
    destruct (find _ (purchaseorder s)) as [po|]; [|apply pos_keep_lines_refl].
    cbn zeta.
    destruct (ObjectId_of_str bson (PurchaseOrder.pr_id po));
      [|apply pos_keep_lines_status].
    destruct (find _ (purchaserequest s)); apply pos_keep_lines_status.
  - unfold mark_notification_read. unfold_store_ops.
    destruct (ObjectId_of_str bson notif_id); apply pos_keep_lines_refl.
Qed.

Lemma run_pos_keep_lines reqs s :
  pos_keep_lines (purchaseorder s) (purchaseorder (run bson py_sum reqs s)).
Proof.
  revert s. induction reqs as [|[now r] reqs IH]; intros s.
  - apply pos_keep_lines_refl.
  - simpl. intros i po H.
    destruct (handle_pos_keep_lines now r s i po H) as [po1 [H1 E1]].
    destruct (IH _ i po1 H1) as [po' [H' E']].
    exists po'. split; [exact H' | congruence].
Qed.

Lemma same_line_copy ls : Forall2 same_line ls (map copy_line ls).
Proof.
  induction ls as [|l ls IH]; simpl; constructor; [|exact IH].
  repeat split.
Qed.

(** C7. A purchase order created from a purchase request is added to the
    collection with lines that carry, in order and field by field, the sku,
    name, qty and uom of the lines the request had at that time.  The
    purchase order holds its own lines: replacing the purchase requests of
    the store by anything leaves the purchase orders as they are, and no
    later sequence of requests changes the lines of the purchase order. *)
Theorem create_po_snapshot now data s po_id s' :
  create_po bson now data s = (Returned (IdResponse po_id), s') ->
  exists o pr_doc po,
    ObjectId_of_str bson (poc_pr_id data) = Some o /\
    find (fun d => N.eqb (PurchaseRequest._id d) o) (purchaserequest s)
      = Some pr_doc /\
    purchaseorder s' = (purchaseorder s ++ [po])%list /\
    po_id = str bson (PurchaseOrder._id po) /\
    PurchaseOrder.pr_id po = poc_pr_id data /\
    Forall2 same_line (PurchaseRequest.lines pr_doc) (PurchaseOrder.lines po) /\
    (forall prs', purchaseorder (set_purchaserequest prs' s') = purchaseorder s') /\
    (forall reqs, exists po',
       nth_error (purchaseorder (run bson py_sum reqs s'))
                 (List.length (purchaseorder s)) = Some po' /\
       PurchaseOrder.lines po' = PurchaseOrder.lines po).
Proof.
  unfold create_po. unfold_store_ops.
  destruct (ObjectId_of_str bson (poc_pr_id data)) as [o|] eqn:Hid;
    [|discriminate].
  destruct (find _ (purchaserequest s)) as [pr_doc|] eqn:Hfind; [|discriminate].
  destruct (negb (String.eqb _ PR_APPROVED)); [discriminate|].
  destruct (ObjectId_of_str bson (poc_supplier_id data)); [|discriminate].
  destruct (find _ (supplier s)); [|discriminate].
  cbn. intros H. inversion H; subst; clear H.
  eexists o, pr_doc, _. cbn.
  split; [reflexivity|]. split; [exact Hfind|].
  repeat split.
  - apply same_line_copy.
  - intros reqs. apply run_pos_keep_lines. cbn.
    rewrite nth_error_app2, Nat.sub_diag; [reflexivity | apply Nat.le_refl].
Qed.

(** ** Quantities *)

Lemma fold_add_app a l l' :
  fold_add a (l ++ l') = fold_add (fold_add a l) l'.
Proof. apply fold_left_app. Qed.

Lemma fold_left_add_map {A} (f : A -> float) l a :
  fold_left (fun acc x => PrimFloat.add acc (f x)) l a = fold_add a (map f l).
Proof.
  revert a. induction l as [|x l IH]; intros a; simpl; [reflexivity|].
  apply IH.
Qed.

(** The nested loops of [create_gr] add the quantities of all lines of all
    receipts in one pass, receipt by receipt. *)
Lemma total_received_from grs a :
  fold_left
    (fun acc g =>
       fold_left (fun acc' l => PrimFloat.add acc' (GRLine.qty_received l))
                 (GoodsReceipt.lines g) acc)
    grs a
  = fold_add a (map GRLine.qty_received (flat_map GoodsReceipt.lines grs)).
Proof.
  revert a. induction grs as [|g grs IH]; intros a; simpl; [reflexivity|].
  now rewrite IH, fold_left_add_map, map_app, fold_add_app.
Qed.

Lemma total_received_sum grs :
  total_received grs
  = fold_add 0%float
      (map GRLine.qty_received (flat_map GoodsReceipt.lines grs)).
Proof. apply total_received_from. Qed.

(** *** Doubles

    The sum of two doubles that are zero or more is zero or more.  This is
    read off the specification of binary64 addition: adding two
    non-negative mantissas and rounding gives no negative mantissa. *)

Lemma leb_zero_spec (x : float) :
  PrimFloat.leb 0%float x = sf_nonneg (Prim2SF x).
Proof.
  rewrite leb_spec.
  replace (Prim2SF 0%float) with (S754_zero false) by (vm_compute; reflexivity).
  destruct (Prim2SF x) as [s | s | | s m e]; try destruct s; reflexivity.
Qed.

Lemma shr_1_nonneg mrs : (0 <= shr_m mrs)%Z -> (0 <= shr_m (shr_1 mrs))%Z.
Proof.
  destruct mrs as [m r s]. unfold shr_1. cbn [shr_m].
  destruct m as [|p|p]; [cbn; lia | | lia].
  intros _. destruct p; cbn; lia.
Qed.

Lemma iter_shr_1_nonneg p mrs :
  (0 <= shr_m mrs)%Z ->
  (0 <= shr_m (@SpecFloat.iter_pos shr_record shr_1 p mrs))%Z.
Proof.
  revert mrs. induction p as [p IH | p IH |]; intros mrs H;
    cbn [SpecFloat.iter_pos].
  - apply IH. apply IH. apply shr_1_nonneg. exact H.
  - apply IH. apply IH. exact H.
  - apply shr_1_nonneg. exact H.
Qed.

Lemma shr_nonneg mrs e n :
  (0 <= shr_m mrs)%Z -> (0 <= shr_m (fst (shr mrs e n)))%Z.
Proof.
  intros H. unfold shr. destruct n; cbn [fst]; auto.
  now apply iter_shr_1_nonneg.
Qed.

Lemma shr_fexp_nonneg prec emax m e l :
  (0 <= m)%Z -> (0 <= shr_m (fst (shr_fexp prec emax m e l)))%Z.
Proof.
  intros H. unfold shr_fexp. apply shr_nonneg.
  destruct l as [|[| |]]; cbn; exact H.
Qed.

Lemma round_nearest_even_nonneg m l :
  (0 <= m)%Z -> (0 <= round_nearest_even m l)%Z.
Proof.
  intros H. unfold round_nearest_even.
  destruct l as [|[| |]]; try destruct (Z.even m); lia.
Qed.

Lemma binary_round_aux_nonneg prec emax m e l :
  (0 <= m)%Z -> sf_nonneg (binary_round_aux prec emax false m e l) = true.
Proof.
  intros H. unfold binary_round_aux.
  pose proof (shr_fexp_nonneg prec emax m e l H) as H1.
  destruct (shr_fexp prec emax m e l) as [mrs' e']. cbn [fst] in H1.
  pose proof (shr_fexp_nonneg prec emax
                (round_nearest_even (shr_m mrs') (loc_of_shr_record mrs'))
                e' loc_Exact
                (round_nearest_even_nonneg _ _ H1)) as H2.
  destruct (shr_fexp prec emax _ e' loc_Exact) as [mrs'' e'']. cbn [fst] in H2.
  destruct (shr_m mrs'') as [|p|p]; [reflexivity | | lia].
  destruct (Z.leb e'' (emax - prec)); reflexivity.
Qed.

Lemma SFadd_nonneg prec emax x y :
  sf_nonneg x = true -> sf_nonneg y = true ->
  sf_nonneg (SFadd prec emax x y) = true.
Proof.
  destruct x as [sx | sx | | sx mx ex]; destruct y as [sy | sy | | sy my ey];
    cbn [sf_nonneg]; intros Hx Hy; try discriminate;
    try (destruct sx; try discriminate); try (destruct sy; try discriminate);
    try reflexivity.
  unfold SFadd. cbn [cond_Zopp].
  unfold binary_normalize.
  match goal with |- context [(Z.pos ?a + Z.pos ?b)%Z] =>
    change (Z.pos a + Z.pos b)%Z with (Z.pos (a + b)) end.
  unfold binary_round.
  destruct (shl_align _ _ _) as [mz ez].
  apply binary_round_aux_nonneg. lia.
Qed.

Lemma add_nonneg (a b : float) :
  nonneg a -> nonneg b -> nonneg (PrimFloat.add a b).
Proof.
  unfold nonneg. rewrite !leb_zero_spec, add_spec. apply SFadd_nonneg.
Qed.

Lemma zero_nonneg : nonneg 0%float.
Proof. reflexivity. Qed.

(** ** Goods receipts and the status of the purchase order *)

Lemma gr_posted_purchaseorder now data po o s :
  find (fun d => N.eqb (PurchaseOrder._id d) o) (purchaseorder s) = Some po ->
  exists st,
    find (fun d => N.eqb (PurchaseOrder._id d) o)
         (purchaseorder (gr_posted py_sum now data po o s))
      = Some (set_po_status st po) /\
    st = (if PrimFloat.leb (total_po_qty py_sum po)
               (received_total (grc_po_id data)
                  (gr_posted py_sum now data po o s))
          then PO_RECEIVED else PO_PARTIALLY_RECEIVED).
Proof.
  intros Hfind. eexists. split.
  - unfold gr_posted. cbn [purchaseorder set_purchaseorder].
    rewrite find_update_first; [rewrite Hfind; reflexivity | auto].
  - unfold received_total, receipts_of, gr_posted.
    cbn [goodsreceipt set_purchaseorder set_inventory set_next_oid
         set_goodsreceipt].
    now rewrite total_received_sum.
Qed.

(** When every stored receipt of a purchase order carries one identifier
    string, the receipts found under that string are the receipts of the
    order. *)
Lemma receipts_for_po_of po_id o s :
  ObjectId_of_str bson po_id = Some o ->
  Forall (fun g => designates bson (GoodsReceipt.po_id g) o = true ->
                   GoodsReceipt.po_id g = po_id) (goodsreceipt s) ->
  receipts_for_po bson o s = receipts_of po_id s.
Proof.
  intros Hid Hall. unfold receipts_for_po, receipts_of.
  apply filter_ext_in. intros g Hg.
  rewrite Forall_forall in Hall. specialize (Hall g Hg).
  destruct (String.eqb (GoodsReceipt.po_id g) po_id) eqn:E.
  - apply String.eqb_eq in E. rewrite E. unfold designates.
    now rewrite Hid, N.eqb_refl.
  - destruct (designates bson (GoodsReceipt.po_id g) o); [|reflexivity].
    apply String.eqb_neq in E. exfalso. apply E. now apply Hall.
Qed.

(** C2 (amended). After a goods receipt is created against a purchase
    order, the status of that order is "received" exactly when R >= T and
    "partially_received" otherwise, also when nothing was received; it is
    never "sent".  T is the sum of the ordered quantities as [sum] computes
    it, R is what the quantities received add up to in doubles over all
    lines of all receipts of the order, the new one included, and the
    comparison is the one of doubles.  This is stated for a purchase order
    all of whose stored receipts carry the identifier string of the
    request. *)
Theorem create_gr_po_status now data s gr_id s' o :
  create_gr bson py_sum now data s = (Returned (IdResponse gr_id), s') ->
  ObjectId_of_str bson (grc_po_id data) = Some o ->
  Forall (fun g => designates bson (GoodsReceipt.po_id g) o = true ->
                   GoodsReceipt.po_id g = grc_po_id data) (goodsreceipt s) ->
  exists po',
    find (fun d => N.eqb (PurchaseOrder._id d) o) (purchaseorder s') = Some po' /\
    (PurchaseOrder.status po' = PO_RECEIVED <->
     PrimFloat.leb (total_po_qty py_sum po') (received_for_po bson o s') = true) /\
    (PurchaseOrder.status po' = PO_PARTIALLY_RECEIVED <->
     PrimFloat.leb (total_po_qty py_sum po') (received_for_po bson o s') = false) /\
    PurchaseOrder.status po' <> PO_SENT.
Proof.
  intros Hrun Hid Hall. revert Hrun. rewrite create_gr_unfold, Hid.
  destruct (find _ (purchaseorder s)) as [po|] eqn:Hfind; [|discriminate].
  cbn zeta.
  destruct (gr_posted_purchaseorder now data po o s Hfind) as [st [Hpo Hst]].
  assert (Hgoal : forall s1,
    purchaseorder s1 = purchaseorder (gr_posted py_sum now data po o s) ->
    goodsreceipt s1 = goodsreceipt (gr_posted py_sum now data po o s) ->
    exists po',
      find (fun d => N.eqb (PurchaseOrder._id d) o) (purchaseorder s1)
        = Some po' /\
      (PurchaseOrder.status po' = PO_RECEIVED <->
       PrimFloat.leb (total_po_qty py_sum po') (received_for_po bson o s1)
       = true) /\
      (PurchaseOrder.status po' = PO_PARTIALLY_RECEIVED <->
       PrimFloat.leb (total_po_qty py_sum po') (received_for_po bson o s1)
       = false) /\
      PurchaseOrder.status po' <> PO_SENT).
  { intros s1 Hp Hg. exists (set_po_status st po).
    split; [now rewrite Hp|].
    assert (Hall1 : Forall
              (fun g => designates bson (GoodsReceipt.po_id g) o = true ->
                        GoodsReceipt.po_id g = grc_po_id data)
              (goodsreceipt s1)).
    { rewrite Hg. unfold gr_posted.
      cbn [goodsreceipt set_purchaseorder set_inventory set_next_oid
           set_goodsreceipt].
      apply Forall_app. split; [exact Hall|].
      constructor; [reflexivity | constructor]. }
    replace (received_for_po bson o s1)
      with (received_total (grc_po_id data)
              (gr_posted py_sum now data po o s)).
    2:{ unfold received_for_po, received_total.
        rewrite (receipts_for_po_of _ _ _ Hid Hall1).
        unfold receipts_of. now rewrite Hg. }
    replace (total_po_qty py_sum (set_po_status st po))
      with (total_po_qty py_sum po) by reflexivity.
    cbn [PurchaseOrder.status set_po_status].
    destruct (PrimFloat.leb _ _); subst st;
      repeat split; intros; try discriminate; try reflexivity; congruence. }
  destruct (ObjectId_of_str bson (PurchaseOrder.pr_id po)); [|discriminate].
  destruct (find _ (purchaserequest s));
    intros H; inversion H; subst; apply Hgoal; reflexivity.
Qed.

(** ** Inventory *)

Lemma inc_all_app h qs qs' :
  inc_all h (qs ++ qs') = inc_all (inc_all h qs) qs'.
Proof. apply fold_left_app. Qed.

Lemma quantities_for_app sku l l' :
  quantities_for sku (l ++ l')
  = (quantities_for sku l ++ quantities_for sku l')%list.
Proof. unfold quantities_for. now rewrite filter_app, map_app. Qed.

(** One step of the inventory loop increments the record of the line's SKU,
    or creates it with the quantity of the line, and leaves every other SKU
    as it was. *)
Lemma stock_post_line sku st line :
  stock sku (fst (post_line st line))
  = inc_all (stock sku (fst st)) (quantities_for sku [line]).
Proof.
  unfold post_line, stock, quantities_for. cbn [filter].
  destruct (existsb _ (fst st)) eqn:He; cbn [fst].
  - destruct (String.eqb (GRLine.sku line) sku) eqn:Es.
    + apply String.eqb_eq in Es. subst sku.
      rewrite find_update_first; [|auto].
      destruct (find _ (fst st)) eqn:Hf; cbn.
      * reflexivity.
      * exfalso. revert Hf. now apply find_existsb_true.
    + rewrite find_update_first_other.
      * reflexivity.
      * intros d Hd. apply String.eqb_eq in Hd.
        rewrite Hd. exact Es.
      * reflexivity.
  - rewrite find_app.
    destruct (String.eqb (GRLine.sku line) sku) eqn:Es.
    + apply String.eqb_eq in Es. subst sku.
      rewrite (find_existsb_false _ _ He). cbn.
      now rewrite String.eqb_refl.
    + destruct (find _ (fst st)); cbn.
      * reflexivity.
      * now rewrite Es.
Qed.

Lemma stock_post_lines sku lines st :
  stock sku (fst (fold_left post_line lines st))
  = inc_all (stock sku (fst st)) (quantities_for sku lines).
Proof.
  revert st. induction lines as [|line lines IH]; intros st;
    cbn [fold_left]; [reflexivity|].
  rewrite IH, stock_post_line.
  change (line :: lines) with ([line] ++ lines)%list.
  now rewrite quantities_for_app, inc_all_app.
Qed.

Lemma gr_posted_stock now data po o s sku :
  stock sku (inventory (gr_posted py_sum now data po o s))
  = inc_all (stock sku (inventory s)) (quantities_for sku (grc_lines data)).
Proof.
  unfold gr_posted. cbn [inventory set_purchaseorder set_inventory].
  now rewrite stock_post_lines.
Qed.

(** C8. When a goods receipt is created against an existing purchase order
    whose [pr_id], an identifier that [create_po] has accepted, is the
    identifier of no purchase request, the call succeeds and returns the
    identifier of the new receipt: the receipt is recorded, the on-hand
    quantity of every SKU is incremented by the quantities that the lines
    post for it, the status of the purchase order is recomputed, and no
    notification is added. *)
Theorem create_gr_without_pr now data s o po p :
  ObjectId_of_str bson (grc_po_id data) = Some o ->
  find (fun d => N.eqb (PurchaseOrder._id d) o) (purchaseorder s) = Some po ->
  ObjectId_of_str bson (PurchaseOrder.pr_id po) = Some p ->
  find (fun d => N.eqb (PurchaseRequest._id d) p) (purchaserequest s) = None ->
  exists s',
    create_gr bson py_sum now data s
      = (Returned (IdResponse (str bson (next_oid s))), s') /\
    goodsreceipt s'
      = (goodsreceipt s ++
         [GoodsReceipt.mk (next_oid s) (grc_po_id data) (grc_lines data) now])%list /\
    (forall sku,
       stock sku (inventory s')
       = inc_all (stock sku (inventory s))
           (quantities_for sku (grc_lines data))) /\
    (exists po',
       find (fun d => N.eqb (PurchaseOrder._id d) o) (purchaseorder s')
         = Some po' /\
       PurchaseOrder.status po' =
         if PrimFloat.leb (total_po_qty py_sum po')
              (received_total (grc_po_id data) s')
         then PO_RECEIVED else PO_PARTIALLY_RECEIVED) /\
    notification s' = notification s.
Proof.
  intros Hid Hpo Hpr Hnone. exists (gr_posted py_sum now data po o s).
  split; [|split; [|split; [|split]]].
  - rewrite create_gr_unfold, Hid, Hpo. cbn zeta. now rewrite Hpr, Hnone.
  - reflexivity.
  - intros sku. apply gr_posted_stock.
  - destruct (gr_posted_purchaseorder now data po o s Hpo) as [st [Hf Hst]].
    exists (set_po_status st po). split; [exact Hf|].
    cbn [PurchaseOrder.status set_po_status]. exact Hst.
  - reflexivity.
Qed.

(** ** Submission of a purchase request *)

(** C4 (amended). The list of lines of a submission is not checked for
    emptiness.  A submission whose lines, possibly none, all have a positive
    quantity succeeds exactly when [employee_id] resolves to a user of role
    employee and [manager_id] to a user of role manager: the purchase request
    is then added with status submitted and exactly the lines given;
    otherwise the call raises an error of status 400 and the store is
    unchanged, so no purchase request is persisted. *)
Theorem create_pr_lines now pr s :
  Forall (fun l => PrimFloat.ltb 0%float (PRLine.qty l) = true) (prc_lines pr) ->
  match user_with_role bson "employee" (prc_employee_id pr) s,
        user_with_role bson "manager" (prc_manager_id pr) s with
  | Some _, Some _ =>
      exists s',
        create_pr bson now pr s
          = (Returned (IdResponse (str bson (next_oid s))), s') /\
        purchaserequest s'
          = (purchaserequest s ++
             [PurchaseRequest.mk (next_oid s) (prc_employee_id pr)
                (prc_manager_id pr) (prc_reason pr) (prc_lines pr)
                PR_SUBMITTED None None None None now])%list
  | _, _ =>
      exists e,
        create_pr bson now pr s = (Raised e, s) /\ status_code e = 400
  end.
Proof.
  intros _. unfold user_with_role, create_pr. unfold_store_ops.
  destruct (ObjectId_of_str bson (prc_employee_id pr)) as [e|];
    destruct (ObjectId_of_str bson (prc_manager_id pr)) as [m|];
    repeat match goal with
           | |- context [find ?q (user s)] => destruct (find q (user s))
           end;
    eexists; split; reflexivity.
Qed.

(** ** Inventory conservation along a run *)

Ltac split_handler :=
  repeat match goal with
         | |- context [match ObjectId_of_str ?b ?x with _ => _ end] =>
             destruct (ObjectId_of_str b x)
         | |- context [match find ?q ?l with _ => _ end] =>
             destruct (find q l)
         | |- context [if negb ?c then _ else _] => destruct (negb c)
         | |- context [if prd_approve ?d then _ else _] =>
             destruct (prd_approve d)
         end.

Lemma handle_inventory_frame now r s :
  match r with
  | POST_items _ | POST_grs _ => True
  | _ =>
      inventory (snd (handle bson py_sum now r s)) = inventory s /\
      goodsreceipt (snd (handle bson py_sum now r s)) = goodsreceipt s
  end.
Proof.
  destruct r; cbn [handle]; try exact I;
    unfold create_user, create_supplier, create_pr, decide_pr, create_po,
      mark_notification_read;
    unfold_store_ops; split_handler; split; reflexivity.
Qed.

(** Every purchase order that the handlers store carries a [pr_id] that
    [oid] has accepted. *)
Lemma update_first_pr_id_parses q st l :
  Forall (fun po => ObjectId_of_str bson (PurchaseOrder.pr_id po) <> None) l ->
  Forall (fun po => ObjectId_of_str bson (PurchaseOrder.pr_id po) <> None)
    (update_first q (set_po_status st) l).
Proof.
  induction 1 as [|po l Hpo Hl IH]; simpl; [constructor|].
  destruct (q po); constructor; auto.
Qed.

Lemma handle_pr_id_parses now r s :
  Forall (fun po => ObjectId_of_str bson (PurchaseOrder.pr_id po) <> None)
    (purchaseorder s) ->
  Forall (fun po => ObjectId_of_str bson (PurchaseOrder.pr_id po) <> None)
    (purchaseorder (snd (handle bson py_sum now r s))).
Proof.
  intros H. destruct r; cbn [handle].
  - exact H.
  - exact H.
  - unfold create_item. unfold_store_ops. split_handler; exact H.
  - unfold create_pr. unfold_store_ops. split_handler; exact H.
  - unfold decide_pr. unfold_store_ops. split_handler; exact H.
  - unfold create_po. unfold_store_ops.
    destruct (ObjectId_of_str bson (poc_pr_id data)) eqn:Hid; [|exact H].
    split_handler; try exact H.
    cbn. apply Forall_app. split; [exact H|].
    constructor; [|constructor]. cbn. rewrite Hid. discriminate.
  - rewrite create_gr_unfold.
    destruct (ObjectId_of_str bson (grc_po_id data)) as [o|]; [|exact H].
    destruct (find _ (purchaseorder s)) as [po|]; [|exact H].
    cbn zeta.
    assert (Hp : Forall
              (fun po => ObjectId_of_str bson (PurchaseOrder.pr_id po) <> None)
              (purchaseorder (gr_posted py_sum now data po o s))).
    { unfold gr_posted. cbn [purchaseorder set_purchaseorder].
      now apply update_first_pr_id_parses. }
    destruct (ObjectId_of_str bson (PurchaseOrder.pr_id po)); [|exact Hp].
    destruct (find _ (purchaserequest s)); exact Hp.
  - unfold mark_notification_read. unfold_store_ops. split_handler; exact H.
Qed.

Lemma stored_pr_id_parses reqs po :
  In po (purchaseorder (run bson py_sum reqs empty_store)) ->
  ObjectId_of_str bson (PurchaseOrder.pr_id po) <> None.
Proof.
  assert (H : forall s,
            Forall (fun po => ObjectId_of_str bson (PurchaseOrder.pr_id po)
                              <> None) (purchaseorder s) ->
            Forall (fun po => ObjectId_of_str bson (PurchaseOrder.pr_id po)
                              <> None)
              (purchaseorder (run bson py_sum reqs s))).
  { induction reqs as [|[now r] reqs IH]; intros s Hs; simpl; [exact Hs|].
    apply IH. now apply handle_pr_id_parses. }
  intros Hin. specialize (H empty_store (Forall_nil _)).
  rewrite Forall_forall in H. now apply H.
Qed.

Lemma conserved_frame s s' :
  inventory s' = inventory s -> goodsreceipt s' = goodsreceipt s ->
  conserved s -> conserved s'.
Proof.
  intros Hi Hg H sku. unfold posted_quantities. rewrite Hi, Hg. apply H.
Qed.

Lemma inc_all_some x qs : exists y, inc_all (Some x) qs = Some y.
Proof.
  revert x. induction qs as [|q qs IH]; intros x; [now exists x|].
  apply IH.
Qed.

Lemma inc_all_none b qs : inc_all b qs = None -> b = None /\ qs = [].
Proof.
  destruct qs as [|q qs]; [auto|]. cbn [inc_all fold_left].
  intros H.
  destruct (inc_all_some (match b with
                          | Some x => PrimFloat.add x q
                          | None => q
                          end) qs) as [y Hy].
  unfold inc_all in Hy. congruence.
Qed.

Lemma create_item_conserved now it s :
  conserved s -> conserved (snd (create_item bson now it s)).
Proof.
  intros H sku. unfold create_item. unfold_store_ops.
  cbn [inventory set_item set_next_oid].
  destruct (find _ (inventory s)) eqn:Hf; cbn; unfold posted_quantities; cbn.
  - apply H.
  - destruct (H sku) as [b [Hb Hs]]. unfold stock. rewrite find_app.
    unfold stock in Hs.
    destruct (find (fun d => String.eqb (Inventory.sku d) sku) (inventory s))
      eqn:Hsku.
    + exists b. split; [exact Hb | exact Hs].
    + cbn. destruct (String.eqb (ii_sku it) sku) eqn:E.
      * cbn in Hs. symmetry in Hs. apply inc_all_none in Hs.
        destruct Hs as [_ Hq]. unfold posted_quantities in Hq.
        exists (Some 0%float). split; [now right|].
        change (Some 0%float
                = inc_all (Some 0%float)
                    (quantities_for sku
                       (flat_map GoodsReceipt.lines (goodsreceipt s)))).
        now rewrite Hq.
      * exists b. split; [exact Hb | exact Hs].
Qed.

Lemma gr_posted_conserved now data po o s :
  conserved s -> conserved (gr_posted py_sum now data po o s).
Proof.
  intros H sku. destruct (H sku) as [b [Hb Hs]]. exists b.
  split; [exact Hb|].
  rewrite gr_posted_stock, Hs.
  unfold posted_quantities, gr_posted.
  cbn [goodsreceipt set_purchaseorder set_inventory set_next_oid
       set_goodsreceipt].
  rewrite flat_map_app, quantities_for_app, inc_all_app.
  cbn [flat_map GoodsReceipt.lines]. now rewrite app_nil_r.
Qed.

Lemma create_gr_conserved now data s :
  conserved s -> conserved (snd (create_gr bson py_sum now data s)).
Proof.
  intros H. rewrite create_gr_unfold.
  destruct (ObjectId_of_str bson (grc_po_id data)) as [o|]; [|exact H].
  destruct (find _ (purchaseorder s)) as [po|]; [|exact H].
  cbn zeta. pose proof (gr_posted_conserved now data po o s H) as H3.
  destruct (ObjectId_of_str bson (PurchaseOrder.pr_id po)); [|exact H3].
  destruct (find _ (purchaserequest s)); [|exact H3].
  cbn [snd]. eapply conserved_frame; [| |exact H3]; reflexivity.
Qed.

Lemma handle_conserved now r s :
  conserved s -> conserved (snd (handle bson py_sum now r s)).
Proof.
  intros H. pose proof (handle_inventory_frame now r s) as F.
  destruct r; cbn [handle] in *;
    match type of F with
    | _ /\ _ => apply (conserved_frame s); [apply F | apply F | exact H]
    | _ => idtac
    end.
  - now apply create_item_conserved.
  - now apply create_gr_conserved.
Qed.

(** Whatever requests are served from the empty store, the on-hand quantity
    stored for a SKU is what the quantities received for it over all lines
    of all recorded receipts add up to in doubles, in the order of the
    receipts, from the baseline 0 of [create_item] or from the first
    quantity. *)
Lemma inventory_conservation reqs sku :
  exists b,
    (b = None \/ b = Some 0%float) /\
    stock sku (inventory (run bson py_sum reqs empty_store))
    = inc_all b (posted_quantities sku (run bson py_sum reqs empty_store)).
Proof.
  assert (H : forall s, conserved s -> conserved (run bson py_sum reqs s)).
  { induction reqs as [|[now r] reqs IH]; intros s Hs; simpl; [exact Hs|].
    apply IH. now apply handle_conserved. }
  apply H. intros sku'. exists None. split; [now left | reflexivity].
Qed.

(** Quantities that are never negative keep the inventory non-negative. *)
Lemma inc_all_nonneg h qs y :
  match h with Some x => nonneg x | None => True end ->
  Forall nonneg qs ->
  inc_all h qs = Some y -> nonneg y.
Proof.
  revert h. induction qs as [|q qs IH]; intros h Hh Hq; cbn [inc_all fold_left].
  - intros E. subst h. exact Hh.
  - inversion Hq as [|? ? Hq1 Hq2]; subst. apply IH; [|exact Hq2].
    destruct h as [x|]; [now apply add_nonneg | exact Hq1].
Qed.

Lemma quantities_for_nonneg sku lines :
  Forall (fun l => nonneg (GRLine.qty_received l)) lines ->
  Forall nonneg (quantities_for sku lines).
Proof.
  intros H. unfold quantities_for. apply Forall_map.
  apply Forall_forall. intros l Hl. apply filter_In in Hl.
  rewrite Forall_forall in H. now apply H.
Qed.

Lemma stock_nonneg reqs sku y :
  Forall (fun l => nonneg (GRLine.qty_received l))
    (flat_map GoodsReceipt.lines
       (goodsreceipt (run bson py_sum reqs empty_store))) ->
  stock sku (inventory (run bson py_sum reqs empty_store)) = Some y ->
  nonneg y.
Proof.
  intros Hpos Hy.
  destruct (inventory_conservation reqs sku) as [b [Hb Hs]].
  rewrite Hy in Hs. symmetry in Hs.
  apply (inc_all_nonneg b (posted_quantities sku
                             (run bson py_sum reqs empty_store))).
  - destruct Hb; subst b; [exact I | exact zero_nonneg].
  - now apply quantities_for_nonneg.
  - exact Hs.
Qed.

Lemma inventory_nonneg reqs sku :
  Forall (fun l => nonneg (GRLine.qty_received l))
    (flat_map GoodsReceipt.lines
       (goodsreceipt (run bson py_sum reqs empty_store))) ->
  nonneg (on_hand_of sku (inventory (run bson py_sum reqs empty_store))).
Proof.
  intros H. pose proof (stock_nonneg reqs sku) as Hs.
  unfold stock in Hs. unfold on_hand_of.
  destruct (find _ (inventory (run bson py_sum reqs empty_store)));
    [|exact zero_nonneg].
  now apply Hs.
Qed.

(** * Further properties of the handlers *)

(** ** Errors *)

(** X1. A request whose first identifier is malformed raises the 400 error
    "Invalid id format" and leaves the store as it was. *)
Theorem malformed_id_rejected now r s i :
  primary_id r = Some i ->
  ObjectId_of_str bson i = None ->
  handle bson py_sum now r s = (Raised invalid_id, s).
Proof.
  intros Hp Hi. destruct r; cbn in Hp; inversion Hp; subst; cbn [handle].
  - unfold create_pr. unfold_store_ops. now rewrite Hi.
  - unfold decide_pr. unfold_store_ops. now rewrite Hi.
  - unfold create_po. unfold_store_ops. now rewrite Hi.
  - rewrite create_gr_unfold. now rewrite Hi.
  - unfold mark_notification_read. unfold_store_ops. now rewrite Hi.
Qed.

(** X2. A request that raises does so with status 400, 403 or 404.  Except
    for the creation of a goods receipt, a request that raises has written
    nothing; and a goods receipt that raises 404 has written nothing. *)
Theorem failed_request_writes_nothing now r s e s' :
  handle bson py_sum now r s = (Raised e, s') ->
  (status_code e = 400 \/ status_code e = 403 \/ status_code e = 404) /\
  (is_POST_grs r = false -> s' = s) /\
  (status_code e = 404 -> s' = s).
Proof.
  destruct r; cbn [handle is_POST_grs].
  - unfold create_user. unfold_store_ops. discriminate.
  - unfold create_supplier. unfold_store_ops. discriminate.
  - unfold create_item. unfold_store_ops. split_handler; discriminate.
  - unfold create_pr. unfold_store_ops. split_handler;
      intros H; inversion H; subst; cbn; auto.
  - unfold decide_pr. unfold_store_ops. split_handler;
      intros H; inversion H; subst; cbn; auto.
  - unfold create_po. unfold_store_ops. split_handler;
      intros H; inversion H; subst; cbn; auto.
  - rewrite create_gr_unfold. cbn zeta. split_handler;
      intros H; inversion H; subst; cbn; auto;
      (split; [auto|]); split; intros; discriminate.
  - unfold mark_notification_read. unfold_store_ops. split_handler;
      intros H; inversion H; subst; cbn; auto.
Qed.

(** X3. In [decide_pr] the lookup comes first and the manager is checked
    before the status: an unknown purchase request raises 404, and a manager
    other than the assigned one raises 403 whatever the status of the
    request; the store is unchanged. *)
Theorem decide_pr_lookup_errors now pr_id decision s o :
  ObjectId_of_str bson pr_id = Some o ->
  match find (fun d => N.eqb (PurchaseRequest._id d) o) (purchaserequest s) with
  | None =>
      decide_pr bson now pr_id decision s
      = (Raised {| status_code := 404; detail := "PR not found" |}, s)
  | Some p =>
      PurchaseRequest.manager_id p <> prd_manager_id decision ->
      decide_pr bson now pr_id decision s
      = (Raised {| status_code := 403;
                   detail := "Manager not assigned to this PR" |}, s)
  end.
Proof.
  intros Hid. unfold decide_pr. unfold_store_ops. rewrite Hid.
  destruct (find _ (purchaserequest s)) as [p|]; [|reflexivity].
  intros Hm. apply String.eqb_neq in Hm. now rewrite Hm.
Qed.

(** ** The effect of a decision *)

(** X4. A decision of the assigned manager on a submitted purchase request
    rewrites that request alone: an approval sets status approved,
    [approved_by] the manager and [approved_at] the current time; a
    rejection sets status rejected and [rejected_reason] the reason given, or
    the empty string.  Every other field of the request, every other
    purchase request and every collection but the notifications stay as they
    were. *)
Theorem decide_pr_effect now pr_id decision s o p :
  ObjectId_of_str bson pr_id = Some o ->
  find (fun d => N.eqb (PurchaseRequest._id d) o) (purchaserequest s) = Some p ->
  PurchaseRequest.manager_id p = prd_manager_id decision ->
  PurchaseRequest.status p = PR_SUBMITTED ->
  exists s' p',
    decide_pr bson now pr_id decision s = (Returned OkResponse, s') /\
    find (fun d => N.eqb (PurchaseRequest._id d) o) (purchaserequest s')
      = Some p' /\
    p' = (if prd_approve decision
          then PurchaseRequest.mk (PurchaseRequest._id p)
                 (PurchaseRequest.employee_id p) (PurchaseRequest.manager_id p)
                 (PurchaseRequest.reason p) (PurchaseRequest.lines p)
                 PR_APPROVED (Some (prd_manager_id decision)) (Some now)
                 (PurchaseRequest.rejected_reason p) (PurchaseRequest.po_id p)
                 (PurchaseRequest.created_at p)
          else PurchaseRequest.mk (PurchaseRequest._id p)
                 (PurchaseRequest.employee_id p) (PurchaseRequest.manager_id p)
                 (PurchaseRequest.reason p) (PurchaseRequest.lines p)
                 PR_REJECTED (PurchaseRequest.approved_by p)
                 (PurchaseRequest.approved_at p)
                 (Some (reason_or_empty decision)) (PurchaseRequest.po_id p)
                 (PurchaseRequest.created_at p)) /\
    (forall i d, nth_error (purchaserequest s) i = Some d -> d <> p ->
       nth_error (purchaserequest s') i = Some d) /\
    List.length (purchaserequest s') = List.length (purchaserequest s) /\
    user s' = user s /\ supplier s' = supplier s /\ item s' = item s /\
    inventory s' = inventory s /\ purchaseorder s' = purchaseorder s /\
    goodsreceipt s' = goodsreceipt s.
Proof.
  intros Hid Hfind Hmgr Hst.
  assert (Em : String.eqb (PurchaseRequest.manager_id p)
                 (prd_manager_id decision) = true)
    by (apply String.eqb_eq; exact Hmgr).
  assert (Hother : forall u i d,
            nth_error (purchaserequest s) i = Some d -> d <> p ->
            nth_error
              (update_first (fun d => N.eqb (PurchaseRequest._id d) o) u
                 (purchaserequest s)) i = Some d).
  { intros u i d Hd Hneq.
    destruct (nth_error_update_first
                (fun d => N.eqb (PurchaseRequest._id d) o) u _ i d Hd)
      as [Hs | [Hf _]]; [exact Hs|].
    rewrite Hfind in Hf. inversion Hf. congruence. }
  unfold decide_pr. unfold_store_ops.
  rewrite Hid, Hfind, Em. cbn [negb existsb].
  rewrite orb_false_r, Hst.
  replace (String.eqb PR_SUBMITTED PR_SUBMITTED) with true by reflexivity.
  cbn [negb].
  destruct (prd_approve decision); eexists; eexists;
    (split; [reflexivity|]);
    cbn [purchaserequest user supplier item inventory purchaseorder
         goodsreceipt set_notification set_next_oid set_purchaserequest];
    (split; [rewrite find_update_first; [rewrite Hfind; reflexivity | auto]|]);
    (split; [reflexivity|]);
    (split; [apply Hother|]);
    (split; [apply update_first_length|]);
    repeat split.
Qed.


(** ** Purchase orders: refusals and links *)

(** X5. [create_po] refuses, with the store unchanged: an unknown purchase
    request with 404; a purchase request in any status but approved with
    400 "PR is not approved", before the supplier is looked at; and for an
    approved request, a malformed supplier identifier with 400 "Invalid id
    format" and an unknown supplier with 400 "Invalid supplier_id". *)
Theorem create_po_refusals now data s o :
  ObjectId_of_str bson (poc_pr_id data) = Some o ->
  match find (fun d => N.eqb (PurchaseRequest._id d) o) (purchaserequest s) with
  | None =>
      create_po bson now data s
      = (Raised {| status_code := 404; detail := "PR not found" |}, s)
  | Some p =>
      (PurchaseRequest.status p <> PR_APPROVED ->
       create_po bson now data s
       = (Raised {| status_code := 400; detail := "PR is not approved" |}, s)) /\
      (PurchaseRequest.status p = PR_APPROVED ->
       match ObjectId_of_str bson (poc_supplier_id data) with
       | None => create_po bson now data s = (Raised invalid_id, s)
       | Some so =>
           find (fun d => N.eqb (Supplier._id d) so) (supplier s) = None ->
           create_po bson now data s
           = (Raised {| status_code := 400; detail := "Invalid supplier_id" |},
              s)
       end)
  end.
Proof.
  intros Hid. unfold create_po. unfold_store_ops. rewrite Hid.
  destruct (find _ (purchaserequest s)) as [p|]; [|reflexivity].
  split.
  - intros Hst. apply String.eqb_neq in Hst. now rewrite Hst.
  - intros Hst. rewrite Hst.
    replace (String.eqb PR_APPROVED PR_APPROVED) with true by reflexivity.
    cbn [negb].
    destruct (ObjectId_of_str bson (poc_supplier_id data)); [|reflexivity].
    intros Hs. now rewrite Hs.
Qed.

(** X6. When [create_po] succeeds, the purchase order it adds has status
    sent and the [pr_id] and [supplier_id] of the request; the purchase
    request found under [pr_id] gets status ordered and [po_id] the returned
    identifier and keeps its other fields; every other purchase request and
    the users, suppliers, items, inventory and receipts stay as they were. *)
Theorem create_po_links now data s r s' :
  create_po bson now data s = (Returned r, s') ->
  exists o p,
    ObjectId_of_str bson (poc_pr_id data) = Some o /\
    find (fun d => N.eqb (PurchaseRequest._id d) o) (purchaserequest s)
      = Some p /\
    PurchaseRequest.status p = PR_APPROVED /\
    r = IdResponse (str bson (next_oid s)) /\
    purchaseorder s'
      = (purchaseorder s ++
         [PurchaseOrder.mk (next_oid s) (poc_pr_id data) (poc_supplier_id data)
            (map copy_line (PurchaseRequest.lines p)) PO_SENT now])%list /\
    find (fun d => N.eqb (PurchaseRequest._id d) o) (purchaserequest s')
      = Some (PurchaseRequest.mk (PurchaseRequest._id p)
                (PurchaseRequest.employee_id p) (PurchaseRequest.manager_id p)
                (PurchaseRequest.reason p) (PurchaseRequest.lines p)
                PR_ORDERED (PurchaseRequest.approved_by p)
                (PurchaseRequest.approved_at p)
                (PurchaseRequest.rejected_reason p)
                (Some (str bson (next_oid s)))
                (PurchaseRequest.created_at p)) /\
    (forall i d, nth_error (purchaserequest s) i = Some d -> d <> p ->
       nth_error (purchaserequest s') i = Some d) /\
    user s' = user s /\ supplier s' = supplier s /\ item s' = item s /\
    inventory s' = inventory s /\ goodsreceipt s' = goodsreceipt s.
Proof.
  unfold create_po. unfold_store_ops.
  destruct (ObjectId_of_str bson (poc_pr_id data)) as [o|] eqn:Hid;
    [|discriminate].
  destruct (find _ (purchaserequest s)) as [p|] eqn:Hfind; [|discriminate].
  destruct (String.eqb (PurchaseRequest.status p) PR_APPROVED) eqn:Hst;
    [|discriminate].
  cbn [negb].
  destruct (ObjectId_of_str bson (poc_supplier_id data)); [|discriminate].
  destruct (find _ (supplier s)); [|discriminate].
  intros H. inversion H; subst; clear H.
  exists o, p.
  cbn [purchaserequest user supplier item inventory purchaseorder
       goodsreceipt set_notification set_next_oid set_purchaserequest
       set_purchaseorder].
  split; [reflexivity|]. split; [exact Hfind|].
  split; [now apply String.eqb_eq|]. split; [reflexivity|].
  split; [reflexivity|].
  split; [rewrite find_update_first; [rewrite Hfind; reflexivity | auto]|].
  split; [|repeat split].
  intros i d Hd Hneq.
  destruct (nth_error_update_first
              (fun d => N.eqb (PurchaseRequest._id d) o)
              (set_ordered (str bson (next_oid s))) _ i d Hd)
    as [Hs | [Hf _]]; [exact Hs|].
  rewrite Hfind in Hf. inversion Hf. congruence.
Qed.

(** X7. A purchase request yields at most one purchase order in a row of
    requests: once [create_po] has succeeded for a [pr_id], every further
    [create_po] for that [pr_id] raises 400 "PR is not approved" and writes
    nothing. *)
Theorem create_po_once now data s r s' :
  create_po bson now data s = (Returned r, s') ->
  forall now2 data2,
    poc_pr_id data2 = poc_pr_id data ->
    create_po bson now2 data2 s'
    = (Raised {| status_code := 400; detail := "PR is not approved" |}, s').
Proof.
  unfold create_po at 1. unfold_store_ops.
  destruct (ObjectId_of_str bson (poc_pr_id data)) as [o|] eqn:Hid;
    [|discriminate].
  destruct (find _ (purchaserequest s)) as [p|] eqn:Hfind; [|discriminate].
  destruct (negb (String.eqb (PurchaseRequest.status p) PR_APPROVED));
    [discriminate|].
  destruct (ObjectId_of_str bson (poc_supplier_id data)); [|discriminate].
  destruct (find _ (supplier s)); [|discriminate].
  intros H now2 data2 Hsame. inversion H; subst; clear H.
  unfold create_po. unfold_store_ops. rewrite Hsame, Hid.
  cbn [purchaserequest set_notification set_next_oid set_purchaserequest].
  rewrite find_update_first, Hfind; [reflexivity | auto].
Qed.


(** ** Goods receipts *)

Lemma receipts_total_app po_id lines now n s s1 :
  goodsreceipt s1
    = (goodsreceipt s ++ [GoodsReceipt.mk n po_id lines now])%list ->
  received_total po_id s1
  = fold_add (received_total po_id s) (map GRLine.qty_received lines) /\
  (forall other, other <> po_id ->
     received_total other s1 = received_total other s).
Proof.
  intros Hg. split.
  - unfold received_total, receipts_of. rewrite Hg, filter_app.
    cbn [filter GoodsReceipt.po_id].
    rewrite String.eqb_refl, flat_map_app, map_app, fold_add_app.
    cbn [flat_map GoodsReceipt.lines]. now rewrite app_nil_r.
  - intros other Hneq. unfold received_total, receipts_of.
    rewrite Hg, filter_app. cbn [filter GoodsReceipt.po_id].
    apply not_eq_sym in Hneq.
    apply String.eqb_neq in Hneq. rewrite Hneq. now rewrite app_nil_r.
Qed.

Lemma create_gr_goodsreceipt now data s r s' :
  create_gr bson py_sum now data s = (Returned r, s') ->
  exists o po,
    ObjectId_of_str bson (grc_po_id data) = Some o /\
    find (fun d => N.eqb (PurchaseOrder._id d) o) (purchaseorder s) = Some po /\
    r = IdResponse (str bson (next_oid s)) /\
    goodsreceipt s' = goodsreceipt (gr_posted py_sum now data po o s) /\
    inventory s' = inventory (gr_posted py_sum now data po o s) /\
    purchaseorder s' = purchaseorder (gr_posted py_sum now data po o s) /\
    purchaserequest s' = purchaserequest s /\
    user s' = user s /\ supplier s' = supplier s /\ item s' = item s.
Proof.
  rewrite create_gr_unfold.
  destruct (ObjectId_of_str bson (grc_po_id data)) as [o|] eqn:Hid;
    [|discriminate].
  destruct (find _ (purchaseorder s)) as [po|] eqn:Hfind; [|discriminate].
  cbn zeta.
  destruct (ObjectId_of_str bson (PurchaseOrder.pr_id po)); [|discriminate].
  destruct (find _ (purchaserequest s));
    intros H; exists o, po;
    (split; [reflexivity|]); (split; [exact Hfind|]);
    assert (Hr : r = IdResponse (str bson (next_oid s))) by congruence;
    (split; [exact Hr|]);
    assert (Hs : s' = snd (Returned r, s')) by reflexivity;
    rewrite <- H in Hs; cbn [snd] in Hs; subst s'; repeat split.
Qed.

(** X8. When [create_gr] succeeds, it returns the identifier of the receipt
    it has added, with the [po_id] and lines of the request.  For every SKU
    the stored on-hand quantity is the one before the call incremented, in
    doubles and in the order of the lines, by each quantity that a line
    posts for the SKU, or, for a SKU without a record, set to the first
    such quantity and incremented by the others; so a SKU that no line
    names keeps its record.  The users, suppliers, items and purchase
    requests are as they were. *)
Theorem create_gr_effect now data s r s' :
  create_gr bson py_sum now data s = (Returned r, s') ->
  r = IdResponse (str bson (next_oid s)) /\
  goodsreceipt s'
    = (goodsreceipt s ++
       [GoodsReceipt.mk (next_oid s) (grc_po_id data) (grc_lines data) now])%list /\
  (forall sku,
     stock sku (inventory s')
     = inc_all (stock sku (inventory s))
         (quantities_for sku (grc_lines data))) /\
  (forall sku,
     Forall (fun l => GRLine.sku l <> sku) (grc_lines data) ->
     stock sku (inventory s') = stock sku (inventory s)) /\
  purchaserequest s' = purchaserequest s /\
  user s' = user s /\ supplier s' = supplier s /\ item s' = item s.
Proof.
  intros H.
  destruct (create_gr_goodsreceipt now data s r s' H)
    as [o [po [_ [_ [Hr [Hg [Hi [_ [Hpr [Hu [Hs Hit]]]]]]]]]]].
  assert (Hinc : forall sku,
            stock sku (inventory s')
            = inc_all (stock sku (inventory s))
                (quantities_for sku (grc_lines data))).
  { intros sku. rewrite Hi. apply gr_posted_stock. }
  repeat split; try assumption.
  - intros sku Hnone. rewrite Hinc.
    assert (E : quantities_for sku (grc_lines data) = []).
    { clear - Hnone. unfold quantities_for.
      induction Hnone as [|l ls Hl _ IH]; [reflexivity|].
      cbn [filter]. apply String.eqb_neq in Hl. now rewrite Hl. }
    now rewrite E.
Qed.

(** X9. The total that [create_gr] aggregates anew over all receipts stored
    under the [po_id] of the request is the total before the call with the
    quantities of the new lines added to it one after the other, in
    doubles; the totals under every other [po_id] are untouched. *)
Theorem create_gr_total_incremental now data s r s' :
  create_gr bson py_sum now data s = (Returned r, s') ->
  received_total (grc_po_id data) s'
  = fold_add (received_total (grc_po_id data) s)
      (map GRLine.qty_received (grc_lines data)) /\
  (forall other, other <> grc_po_id data ->
     received_total other s' = received_total other s).
Proof.
  intros H.
  destruct (create_gr_goodsreceipt now data s r s' H)
    as [o [po [_ [_ [_ [Hg _]]]]]].
  apply (receipts_total_app _ _ now (next_oid s)). rewrite Hg. reflexivity.
Qed.

(** ** Inventory records *)

Lemma update_first_skus q x l :
  map Inventory.sku (update_first q (inc_on_hand x) l) = map Inventory.sku l.
Proof.
  induction l as [|d l IH]; simpl; [reflexivity|].
  destruct (q d); simpl; [reflexivity | now rewrite IH].
Qed.

Lemma sku_absent k l :
  find (fun d => String.eqb (Inventory.sku d) k) l = None ->
  ~ In k (map Inventory.sku l).
Proof.
  induction l as [|d l IH]; simpl; [auto|].
  destruct (String.eqb (Inventory.sku d) k) eqn:E; [discriminate|].
  apply String.eqb_neq in E. intros Hf [H | H]; [contradiction|].
  now apply IH.
Qed.

Lemma NoDup_snoc {A} (l : list A) a :
  NoDup l -> ~ In a l -> NoDup (l ++ [a]).
Proof.
  intros Hl Ha. apply NoDup_app; [exact Hl | repeat constructor; auto |].
  intros x Hx [E | []]. subst. contradiction.
Qed.

Lemma post_line_skus st line :
  NoDup (map Inventory.sku (fst st)) ->
  NoDup (map Inventory.sku (fst (post_line st line))).
Proof.
  intros H. unfold post_line.
  destruct (existsb _ (fst st)) eqn:He; cbn [fst].
  - now rewrite update_first_skus.
  - rewrite map_app. apply NoDup_snoc; [exact H|].
    apply sku_absent. now apply find_existsb_false.
Qed.

Lemma post_lines_skus lines st :
  NoDup (map Inventory.sku (fst st)) ->
  NoDup (map Inventory.sku (fst (fold_left post_line lines st))).
Proof.
  revert st. induction lines as [|line lines IH]; intros st H; simpl;
    [exact H|].
  apply IH. now apply post_line_skus.
Qed.

Lemma handle_skus now r s :
  NoDup (map Inventory.sku (inventory s)) ->
  NoDup (map Inventory.sku (inventory (snd (handle bson py_sum now r s)))).
Proof.
  intros H. pose proof (handle_inventory_frame now r s) as F.
  destruct r; cbn [handle] in *;
    match type of F with
    | _ /\ _ => destruct F as [Fi _]; now rewrite Fi
    | _ => idtac
    end.
  - unfold create_item. unfold_store_ops.
    cbn [inventory set_item set_next_oid].
    destruct (find _ (inventory s)) eqn:Hf; cbn; [exact H|].
    rewrite map_app. apply NoDup_snoc; [exact H|]. now apply sku_absent.
  - rewrite create_gr_unfold.
    destruct (ObjectId_of_str bson (grc_po_id data)) as [o|]; [|exact H].
    destruct (find _ (purchaseorder s)) as [po|]; [|exact H].
    cbn zeta.
    assert (H3 : NoDup (map Inventory.sku
                          (inventory (gr_posted py_sum now data po o s)))).
    { unfold gr_posted. cbn [inventory set_purchaseorder set_inventory].
      now apply post_lines_skus. }
    destruct (ObjectId_of_str bson (PurchaseOrder.pr_id po)); [|exact H3].
    destruct (find _ (purchaserequest s)); exact H3.
Qed.

Lemma run_skus reqs s :
  NoDup (map Inventory.sku (inventory s)) ->
  NoDup (map Inventory.sku (inventory (run bson py_sum reqs s))).
Proof.
  revert s. induction reqs as [|[now r] reqs IH]; intros s H; simpl;
    [exact H|].
  apply IH. now apply handle_skus.
Qed.

Lemma find_unique_sku l d :
  NoDup (map Inventory.sku l) -> In d l ->
  find (fun x => String.eqb (Inventory.sku x) (Inventory.sku d)) l = Some d.
Proof.
  induction l as [|x l IH]; intros Hn Hin; [contradiction|].
  simpl in *. inversion Hn as [|? ? Hx Hl]; subst.
  destruct Hin as [E | Hin].
  - subst. now rewrite String.eqb_refl.
  - destruct (String.eqb (Inventory.sku x) (Inventory.sku d)) eqn:E.
    + apply String.eqb_eq in E. exfalso. apply Hx. rewrite E.
      now apply in_map.
    + now apply IH.
Qed.

(** X11. Whatever requests are served from the empty store, the inventory
    holds at most one record per SKU. *)
Theorem inventory_sku_unique reqs :
  NoDup (map Inventory.sku (inventory (run bson py_sum reqs empty_store))).
Proof. apply run_skus. constructor. Qed.

(** X12. Whatever requests are served from the empty store, the on-hand
    quantity of every inventory record is what the quantities received for
    its SKU over all lines of all recorded receipts add up to in doubles,
    added one after the other in the order of the receipts, starting from
    the 0 of [create_item] or, without it, from the first quantity. *)
Theorem inventory_records reqs d :
  In d (inventory (run bson py_sum reqs empty_store)) ->
  exists b,
    (b = None \/ b = Some 0%float) /\
    Some (Inventory.on_hand d)
    = inc_all b
        (posted_quantities (Inventory.sku d)
           (run bson py_sum reqs empty_store)).
Proof.
  intros Hd.
  assert (Hn : NoDup (map Inventory.sku
                        (inventory (run bson py_sum reqs empty_store))))
    by (apply run_skus; constructor).
  destruct (inventory_conservation reqs (Inventory.sku d)) as [b [Hb Hs]].
  exists b. split; [exact Hb|]. rewrite <- Hs.
  unfold stock. now rewrite (find_unique_sku _ d Hn Hd).
Qed.

(** X13. As long as no recorded receipt line has a negative quantity, no
    inventory record has a negative on-hand quantity. *)
Theorem inventory_records_nonneg reqs d :
  Forall (fun l => PrimFloat.leb 0%float (GRLine.qty_received l) = true)
    (flat_map GoodsReceipt.lines
       (goodsreceipt (run bson py_sum reqs empty_store))) ->
  In d (inventory (run bson py_sum reqs empty_store)) ->
  PrimFloat.leb 0%float (Inventory.on_hand d) = true.
Proof.
  intros Hpos Hd.
  assert (Hn : NoDup (map Inventory.sku
                        (inventory (run bson py_sum reqs empty_store))))
    by (apply run_skus; constructor).
  apply (stock_nonneg reqs (Inventory.sku d)); [exact Hpos|].
  unfold stock. now rewrite (find_unique_sku _ d Hn Hd).
Qed.

(** X14. [create_item] always succeeds and adds the item.  When the SKU of
    the item has an inventory record the inventory is unchanged, and
    otherwise a record with on-hand quantity 0 is added for it; either way
    the on-hand quantity of every SKU is what it was, so registering an item
    again never resets stock. *)
Theorem create_item_keeps_stock now it s :
  exists s',
    create_item bson now it s
      = (Returned (IdResponse (str bson (next_oid s))), s') /\
    item s'
      = (item s ++
         [Item.mk (next_oid s) (ii_sku it) (ii_name it) (ii_uom it)
            (ii_description it) (ii_category it) now])%list /\
    inventory s'
      = (if existsb (fun d => String.eqb (Inventory.sku d) (ii_sku it))
              (inventory s)
         then inventory s
         else (inventory s ++
               [Inventory.mk (N.succ (next_oid s)) (ii_sku it) 0%float (ii_uom it)
                  (Some now)])%list) /\
    (forall sku, on_hand_of sku (inventory s') = on_hand_of sku (inventory s)) /\
    goodsreceipt s' = goodsreceipt s /\ purchaseorder s' = purchaseorder s /\
    purchaserequest s' = purchaserequest s /\ notification s' = notification s.
Proof.
  unfold create_item. unfold_store_ops.
  cbn [inventory set_item set_next_oid].
  destruct (find _ (inventory s)) as [inv|] eqn:Hf; eexists;
    (split; [reflexivity|]); cbn; (split; [reflexivity|]).
  - split; [|repeat split].
    destruct (existsb _ (inventory s)) eqn:He; [reflexivity|].
    apply find_existsb_false in He. congruence.
  - split; [|split; [|repeat split]].
    + destruct (existsb _ (inventory s)) eqn:He; [|reflexivity].
      apply find_existsb_true in He. contradiction.
    + intros sku. unfold on_hand_of. rewrite find_app.
      destruct (find (fun d => String.eqb (Inventory.sku d) sku) (inventory s))
        eqn:Hs; [reflexivity|].
      cbn. destruct (String.eqb (ii_sku it) sku); reflexivity.
Qed.

(** ** Identifiers *)

Lemma fresh_ids_mono ids n m :
  fresh_ids ids n -> (n <= m)%N -> fresh_ids ids m.
Proof.
  intros [Hn Hb] Hle. split; [exact Hn|].
  eapply Forall_impl; [|exact Hb]. cbn. intros. lia.
Qed.

Lemma fresh_ids_snoc ids n k m :
  fresh_ids ids n -> (n <= k)%N -> (k < m)%N -> fresh_ids (ids ++ [k]) m.
Proof.
  intros [Hn Hb] Hk Hm. split.
  - apply NoDup_snoc; [exact Hn|]. intros Hin.
    rewrite Forall_forall in Hb. specialize (Hb k Hin). lia.
  - apply Forall_app. split.
    + eapply Forall_impl; [|exact Hb]. cbn. intros. lia.
    + repeat constructor. exact Hm.
Qed.

Lemma update_first_map {D A} (f : D -> A) q u l :
  (forall d, f (u d) = f d) -> map f (update_first q u l) = map f l.
Proof.
  intros Hu. induction l as [|d l IH]; simpl; [reflexivity|].
  destruct (q d); simpl; [now rewrite Hu | now rewrite IH].
Qed.

Lemma update_first_app_absent {D} (q : D -> bool) u l l' :
  find q l = None -> update_first q u (l ++ l') = (l ++ update_first q u l')%list.
Proof.
  induction l as [|d l IH]; simpl; [reflexivity|].
  destruct (q d); [discriminate|]. intros H. now rewrite IH.
Qed.

Lemma post_lines_next_oid lines st :
  (snd st <= snd (fold_left post_line lines st))%N.
Proof.
  revert st. induction lines as [|line lines IH]; intros st;
    cbn [fold_left]; [apply N.le_refl|].
  apply N.le_trans with (snd (post_line st line)); [|apply IH].
  unfold post_line. cbv zeta.
  match goal with
  | |- context [existsb ?q ?l] => destruct (existsb q l)
  end; cbn [snd]; [apply N.le_refl | apply N.le_succ_diag_r].
Qed.

Lemma gr_posted_next_oid now data po o s :
  (N.succ (next_oid s) <= next_oid (gr_posted py_sum now data po o s))%N.
Proof.
  unfold gr_posted. cbn [next_oid set_purchaseorder set_inventory set_next_oid].
  apply (post_lines_next_oid (grc_lines data) (inventory s, N.succ (next_oid s))).
Qed.

Ltac fresh_ids_tac :=
  unfold ids_fresh in *;
  cbn [purchaserequest purchaseorder notification next_oid set_user
       set_supplier set_item set_inventory set_purchaserequest
       set_purchaseorder set_goodsreceipt set_notification set_next_oid
       fst snd] in *;
  rewrite ?map_app;
  rewrite ?(update_first_map PurchaseRequest._id),
          ?(update_first_map PurchaseOrder._id),
          ?(update_first_map Notification._id) by reflexivity;
  cbn [map PurchaseRequest._id PurchaseOrder._id Notification._id
       new_notification];
  repeat match goal with
         | H : _ /\ _ |- _ => destruct H
         | |- _ /\ _ => split
         end;
  first [ assumption
        | eapply fresh_ids_snoc; [eassumption | lia | lia]
        | eapply fresh_ids_mono; [eassumption | lia] ].

Lemma handle_ids_fresh now r s :
  ids_fresh s -> ids_fresh (snd (handle bson py_sum now r s)).
Proof.
  intros H. destruct r; cbn [handle].
  - unfold create_user. unfold_store_ops. fresh_ids_tac.
  - unfold create_supplier. unfold_store_ops. fresh_ids_tac.
  - unfold create_item. unfold_store_ops. split_handler; fresh_ids_tac.
  - unfold create_pr. unfold_store_ops. split_handler; fresh_ids_tac.
  - unfold decide_pr. unfold_store_ops. split_handler; fresh_ids_tac.
  - unfold create_po. unfold_store_ops. split_handler; fresh_ids_tac.
  - rewrite create_gr_unfold.
    destruct (ObjectId_of_str bson (grc_po_id data)) as [o|]; [|exact H].
    destruct (find _ (purchaseorder s)) as [po|]; [|exact H].
    cbn zeta. pose proof (gr_posted_next_oid now data po o s) as Hn.
    assert (H3 : ids_fresh (gr_posted py_sum now data po o s)).
    { revert Hn. generalize (next_oid (gr_posted py_sum now data po o s)) at 1.
      unfold gr_posted. intros m Hm.
      set (st := fold_left post_line _ _) in *.
      assert (Hst : (N.succ (next_oid s) <= snd st)%N)
        by apply (post_lines_next_oid (grc_lines data)
                    (inventory s, N.succ (next_oid s))).
      fresh_ids_tac. }
    destruct (ObjectId_of_str bson (PurchaseOrder.pr_id po)); [|exact H3].
    destruct (find _ (purchaserequest s)); [|exact H3].
    cbn [snd]. generalize dependent (gr_posted py_sum now data po o s).
    intros s3 Hn H3. fresh_ids_tac.
  - unfold mark_notification_read. unfold_store_ops.
    split_handler; fresh_ids_tac.
Qed.

(** The identifiers of the purchase requests, purchase orders and
    notifications stay distinct along every run. *)
Lemma run_ids_fresh reqs s : ids_fresh s -> ids_fresh (run bson py_sum reqs s).
Proof.
  revert s. induction reqs as [|[now r] reqs IH]; intros s H; simpl;
    [exact H|].
  apply IH. now apply handle_ids_fresh.
Qed.

Lemma empty_store_ids_fresh : ids_fresh empty_store.
Proof. repeat split; constructor. Qed.

Lemma find_fresh_absent {D} (f : D -> ObjectId) l n :
  Forall (fun i => (i < n)%N) (map f l) ->
  find (fun d => N.eqb (f d) n) l = None.
Proof.
  induction l as [|d l IH]; simpl; intros H; [reflexivity|].
  inversion H; subst.
  destruct (N.eqb (f d) n) eqn:E; [apply N.eqb_eq in E; lia | auto].
Qed.


(** ** Requests in a row *)

(** X15. The identifier that [create_pr] returns designates the purchase
    request it has added: when the string of the next identifier reads back
    as that identifier, as [ObjectId(str(o)) == o] in [bson], and the
    identifiers of the store are distinct, a decision of the assigned
    manager under the returned identifier succeeds, and the request added
    by the submission, with the lines and the employee of the submission,
    is then approved or rejected as decided. *)
Theorem submit_then_decide now pr s i s1 now2 decision :
  ObjectId_of_str bson (str bson (next_oid s)) = Some (next_oid s) ->
  ids_fresh s ->
  create_pr bson now pr s = (Returned (IdResponse i), s1) ->
  prd_manager_id decision = prc_manager_id pr ->
  exists s2 p',
    decide_pr bson now2 i decision s1 = (Returned OkResponse, s2) /\
    nth_error (purchaserequest s2) (List.length (purchaserequest s)) = Some p' /\
    PurchaseRequest.status p'
      = (if prd_approve decision then PR_APPROVED else PR_REJECTED) /\
    PurchaseRequest.lines p' = prc_lines pr /\
    PurchaseRequest.employee_id p' = prc_employee_id pr /\
    PurchaseRequest.manager_id p' = prc_manager_id pr.
Proof.
  intros Hrt [[_ Hprs] _] Hc Hm. revert Hc.
  unfold create_pr. unfold_store_ops.
  destruct (ObjectId_of_str bson (prc_employee_id pr)); [|discriminate].
  destruct (find _ (user s)); [|discriminate].
  destruct (ObjectId_of_str bson (prc_manager_id pr)); [|discriminate].
  destruct (find _ (user s)); [|discriminate].
  intros H. inversion H; subst; clear H.
  pose proof (find_fresh_absent PurchaseRequest._id _ _ Hprs) as Habs.
  unfold decide_pr. unfold_store_ops. rewrite Hrt.
  cbn [purchaserequest set_notification set_next_oid set_purchaserequest].
  rewrite !find_app, Habs. cbn [find PurchaseRequest._id].
  rewrite N.eqb_refl. cbn [PurchaseRequest.manager_id PurchaseRequest.status].
  rewrite Hm, String.eqb_refl. cbn [negb existsb].
  replace (String.eqb PR_SUBMITTED PR_SUBMITTED) with true by reflexivity.
  cbn [orb negb].
  destruct (prd_approve decision); eexists; eexists;
    (split; [reflexivity|]);
    cbn [purchaserequest set_notification set_next_oid set_purchaserequest];
    rewrite (update_first_app_absent _ _ _ _ Habs);
    cbn [update_first PurchaseRequest._id]; rewrite N.eqb_refl;
    rewrite nth_error_app2, Nat.sub_diag by apply Nat.le_refl;
    repeat split.
Qed.

(** X16. The identifier that [create_po] returns designates the purchase
    order it has added: under the same two conditions, a goods receipt
    posted under the returned identifier, whatever its lines, succeeds and
    adds one notification "Goods Received" that carries the identifier of
    the receipt and is addressed to the employee of the purchase request
    behind the order. *)
Theorem order_then_receive now data s i s1 now2 lines :
  ObjectId_of_str bson (str bson (next_oid s)) = Some (next_oid s) ->
  ids_fresh s ->
  create_po bson now data s = (Returned (IdResponse i), s1) ->
  exists o p g s2 n,
    ObjectId_of_str bson (poc_pr_id data) = Some o /\
    find (fun d => N.eqb (PurchaseRequest._id d) o) (purchaserequest s) = Some p /\
    create_gr bson py_sum now2 {| grc_po_id := i; grc_lines := lines |} s1
      = (Returned (IdResponse g), s2) /\
    notification s2 = (notification s1 ++ [n])%list /\
    Notification.to_user_id n = Some (PurchaseRequest.employee_id p) /\
    Notification.role n = None /\
    Notification.title n = "Goods Received" /\
    Notification.link_type n = Some "GR" /\
    Notification.link_id n = Some g.
Proof.
  intros Hrt [_ [[_ Hpos] _]] Hc. revert Hc.
  unfold create_po. unfold_store_ops.
  destruct (ObjectId_of_str bson (poc_pr_id data)) as [o|] eqn:Hid;
    [|discriminate].
  destruct (find _ (purchaserequest s)) as [p|] eqn:Hfind; [|discriminate].
  destruct (negb (String.eqb (PurchaseRequest.status p) PR_APPROVED));
    [discriminate|].
  destruct (ObjectId_of_str bson (poc_supplier_id data)); [|discriminate].
  destruct (find _ (supplier s)); [|discriminate].
  intros H. inversion H; subst; clear H.
  pose proof (find_fresh_absent PurchaseOrder._id _ _ Hpos) as Habs.
  exists o, p. rewrite create_gr_unfold. cbn [grc_po_id grc_lines].
  rewrite Hrt.
  cbn [purchaseorder purchaserequest notification set_notification
       set_next_oid set_purchaserequest set_purchaseorder].
  rewrite find_app, Habs. cbn [find PurchaseOrder._id].
  rewrite N.eqb_refl. cbn zeta. cbn [PurchaseOrder.pr_id]. rewrite Hid.
  rewrite find_update_first, Hfind by auto. cbn [option_map].
  do 3 eexists. split; [reflexivity|]. split; [reflexivity|].
  repeat split.
Qed.


(** ** Listing notifications *)

Lemma Forall_update_first {D} (P : D -> Prop) q u l :
  (forall d, P d -> P (u d)) -> Forall P l -> Forall P (update_first q u l).
Proof.
  intros Hu. induction 1 as [|d l Hd Hl IH]; simpl; [constructor|].
  destruct (q d); constructor; auto.
Qed.

Lemma one_target_user u title message link_type link_id o t :
  one_target (new_notification (Some u) None title message link_type link_id o t).
Proof. left. split; [discriminate | reflexivity]. Qed.

Lemma one_target_role r title message link_type link_id o t :
  one_target (new_notification None (Some r) title message link_type link_id o t).
Proof. right. split; [reflexivity | discriminate]. Qed.

Ltac one_target_tac :=
  cbn;
  first [ assumption
        | apply Forall_app; split;
          [assumption
          | constructor;
            [first [apply one_target_user | apply one_target_role]
            | constructor]]
        | apply Forall_update_first; [intros d Hd; exact Hd | assumption] ].

Lemma handle_one_target now r s :
  Forall one_target (notification s) ->
  Forall one_target (notification (snd (handle bson py_sum now r s))).
Proof.
  intros H. destruct r; cbn [handle].
  - unfold create_user. unfold_store_ops. one_target_tac.
  - unfold create_supplier. unfold_store_ops. one_target_tac.
  - unfold create_item. unfold_store_ops. split_handler; one_target_tac.
  - unfold create_pr. unfold_store_ops. split_handler; one_target_tac.
  - unfold decide_pr. unfold_store_ops. split_handler; one_target_tac.
  - unfold create_po. unfold_store_ops. split_handler; one_target_tac.
  - rewrite create_gr_unfold. cbn zeta. split_handler; one_target_tac.
  - unfold mark_notification_read. unfold_store_ops.
    split_handler; one_target_tac.
Qed.

Lemma run_one_target reqs s :
  Forall one_target (notification s) ->
  Forall one_target (notification (run bson py_sum reqs s)).
Proof.
  revert s. induction reqs as [|[now r] reqs IH]; intros s H; simpl;
    [exact H|].
  apply IH. now apply handle_one_target.
Qed.

(** X17. Whatever requests are served from the empty store, marking as read
    included, every notification of the store has exactly one of
    [to_user_id] and [role] set. *)
Theorem notifications_one_target reqs n :
  In n (notification (run bson py_sum reqs empty_store)) -> one_target n.
Proof.
  intros Hn.
  assert (H : Forall one_target (notification (run bson py_sum reqs empty_store)))
    by (apply run_one_target; constructor).
  rewrite Forall_forall in H. now apply H.
Qed.

(** X18. A listing that filters on both a user and a role answers nothing:
    the two filters are joined, and no notification that the handlers
    create has both fields set. *)
Theorem list_notifications_both_filters reqs user_id role out :
  query_value user_id <> None ->
  query_value role <> None ->
  list_notifications bson user_id role (run bson py_sum reqs empty_store) out ->
  out = [].
Proof.
  intros Hu Hr [Hperm _].
  assert (H : Forall one_target (notification (run bson py_sum reqs empty_store)))
    by (apply run_one_target; constructor).
  assert (E : forall l, Forall one_target l ->
                filter (notifications_query user_id role) l = []).
  { clear - Hu Hr. induction 1 as [|n l Hn _ IH]; [reflexivity|].
    cbn [filter]. rewrite IH.
    replace (notifications_query user_id role n) with false; [reflexivity|].
    unfold notifications_query.
    destruct (query_value user_id) as [u|]; [|contradiction].
    destruct (query_value role) as [r|]; [|contradiction].
    destruct Hn as [[_ Hrole] | [Huser _]].
    - rewrite Hrole. cbn. now rewrite !andb_false_r.
    - rewrite Huser. cbn. now rewrite andb_false_r. }
  rewrite (E _ H) in Hperm. cbn in Hperm. now apply Permutation_nil.
Qed.

Lemma in_update_first_unique {D} (f : D -> ObjectId) u l o d :
  (forall x, f (u x) = f x) ->
  NoDup (map f l) ->
  In d (update_first (fun x => N.eqb (f x) o) u l) ->
  f d = o ->
  exists d0, In d0 l /\ d = u d0.
Proof.
  intros Hu. induction l as [|x l IH]; intros Hn Hin Hd; [contradiction|].
  simpl in *. inversion Hn as [|? ? Hx Hl]; subst.
  destruct (N.eqb (f x) (f d)) eqn:E.
  - apply N.eqb_eq in E. destruct Hin as [Hin | Hin].
    + exists x. auto.
    + exfalso. apply Hx. rewrite E. now apply in_map.
  - destruct Hin as [Hin | Hin].
    + subst x. rewrite N.eqb_refl in E. discriminate.
    + destruct (IH Hl Hin eq_refl) as [d0 [H0 E0]]. exists d0. auto.
Qed.

Lemma in_update_first {D} (q : D -> bool) u l d :
  In d (update_first q u l) -> In d l \/ exists d0, In d0 l /\ d = u d0.
Proof.
  induction l as [|x l IH]; simpl; [auto|].
  destruct (q x); simpl.
  - intros [H | H]; [right; exists x; auto | left; auto].
  - intros [H | H]; [left; auto|].
    destruct (IH H) as [H1 | [d0 [H0 E0]]]; [left; auto|].
    right. exists d0. auto.
Qed.

(** X19. After a notification is marked as read under its identifier, no
    listing answers it any more: when the identifiers of the notifications
    are distinct, every document of every answer is an unread notification
    of the store before the call with another identifier. *)
Theorem mark_read_unlists now notif_id s o user_id role out x :
  ObjectId_of_str bson notif_id = Some o ->
  NoDup (map Notification._id (notification s)) ->
  list_notifications bson user_id role
    (snd (mark_notification_read bson now notif_id s)) out ->
  In x out ->
  exists d,
    In d (notification s) /\
    Notification._id d <> o /\
    Notification.read d = false /\
    x = with_id_notification bson d.
Proof.
  intros Hid Hn [Hperm _] Hx.
  apply Permutation_sym in Hperm.
  apply (Permutation_in _ Hperm) in Hx.
  apply in_map_iff in Hx. destruct Hx as [d [Ex Hd]].
  apply filter_In in Hd. destruct Hd as [Hd Hq].
  revert Hd. unfold mark_notification_read. unfold_store_ops.
  rewrite Hid. cbn [snd notification set_notification]. intros Hd.
  assert (Hread : Notification.read d = false).
  { unfold notifications_query in Hq.
    destruct (Notification.read d); [discriminate | reflexivity]. }
  exists d. split; [|split; [|split; [exact Hread | now symmetry]]].
  - destruct (in_update_first _ _ _ _ Hd) as [H | [d0 [_ E]]]; [exact H|].
    subst d. discriminate.
  - intros Eo.
    destruct (in_update_first_unique Notification._id (set_read now) _ o d
                (fun _ => eq_refl) Hn Hd Eo) as [d0 [_ E]].
    subst d. discriminate.
Qed.

(** X20. The notification of a submission reaches the manager: after a
    successful [create_pr], every answer to the listing for the
    [manager_id] of the submission holds an unread notification "New
    Purchase Request" addressed to that manager and linked to the returned
    identifier. *)
Theorem create_pr_notifies_manager now pr s i s' out :
  create_pr bson now pr s = (Returned (IdResponse i), s') ->
  list_notifications bson (Some (prc_manager_id pr)) None s' out ->
  exists x,
    In x out /\
    NotificationOut.to_user_id x = Some (prc_manager_id pr) /\
    NotificationOut.title x = "New Purchase Request" /\
    NotificationOut.link_type x = Some "PR" /\
    NotificationOut.link_id x = Some i /\
    NotificationOut.read x = false.
Proof.
  unfold create_pr. unfold_store_ops.
  destruct (ObjectId_of_str bson (prc_employee_id pr)); [|discriminate].
  destruct (find _ (user s)); [|discriminate].
  destruct (ObjectId_of_str bson (prc_manager_id pr)); [|discriminate].
  destruct (find _ (user s)); [|discriminate].
  intros H [Hperm _]. inversion H; subst; clear H.
  cbn [notification set_notification set_next_oid set_purchaserequest]
    in Hperm.
  eexists. split.
  - apply (Permutation_in _ Hperm). apply in_map. apply filter_In. split.
    + apply in_or_app. right. left. reflexivity.
    + unfold notifications_query, new_notification. cbn.
      destruct (prc_manager_id pr) as [|c m]; cbn; [reflexivity|].
      now rewrite Ascii.eqb_refl, String.eqb_refl.
  - repeat split.
Qed.

(** X21. The notification of a decision reaches its audience: after a
    successful approval, every answer to the listing for the role
    purchasing holds an unread notification "PR Approved" linked to the
    purchase request, addressed to no user. *)
Theorem approval_notifies_purchasing now pr_id decision s s' out :
  prd_approve decision = true ->
  decide_pr bson now pr_id decision s = (Returned OkResponse, s') ->
  list_notifications bson None (Some "purchasing") s' out ->
  exists x,
    In x out /\
    NotificationOut.to_user_id x = None /\
    NotificationOut.role x = Some "purchasing" /\
    NotificationOut.title x = "PR Approved" /\
    NotificationOut.link_id x = Some pr_id /\
    NotificationOut.read x = false.
Proof.
  intros Ha. unfold decide_pr. unfold_store_ops. rewrite Ha.
  destruct (ObjectId_of_str bson pr_id); [|discriminate].
  destruct (find _ (purchaserequest s)); [|discriminate].
  destruct (negb (String.eqb _ (prd_manager_id decision))); [discriminate|].
  destruct (negb (existsb _ _)); [discriminate|].
  intros H [Hperm _]. inversion H; subst; clear H.
  cbn [notification set_notification set_next_oid set_purchaserequest]
    in Hperm.
  eexists. split.
  - apply (Permutation_in _ Hperm). apply in_map. apply filter_In. split.
    + apply in_or_app. right. left. reflexivity.
    + reflexivity.
  - repeat split.
Qed.


(** ** Listing users *)

Lemma in_firstn {A} n (l : list A) x : In x (firstn n l) -> In x l.
Proof.
  intros H. rewrite <- (firstn_skipn n l). apply in_or_app. now left.
Qed.

(** X22. [list_users] never raises and writes nothing.  It answers at most
    100 users, all active, and all of the role asked for when a role is
    asked for; an empty role is no filter. *)
Theorem list_users_answer role s :
  exists out,
    list_users bson role s = (Returned out, s) /\
    (List.length out <= 100)%nat /\
    Forall (fun x =>
              UserOut.is_active x = true /\
              match query_value role with
              | Some r => UserOut.role x = r
              | None => True
              end) out /\
    list_users bson (Some "") s = list_users bson None s.
Proof.
  unfold list_users. unfold_store_ops. eexists. split; [reflexivity|].
  split; [|split; [|reflexivity]].
  - rewrite length_map. apply firstn_le_length.
  - apply Forall_map. apply Forall_forall. intros u Hu.
    apply in_firstn in Hu. apply filter_In in Hu. destruct Hu as [_ Hq].
    unfold users_query in Hq. apply andb_prop in Hq. destruct Hq as [Ha Hr].
    split; [exact Ha|].
    destruct (query_value role); [now apply String.eqb_eq | exact I].
Qed.

Lemma users_query_new role o now u :
  query_value role = None \/ role = Some (ui_role u) ->
  users_query role
    (User.mk o (ui_name u) (ui_email u) (ui_role u) (ui_department u)
       (ui_manager_id u) true now) = true.
Proof.
  unfold users_query. cbn. intros [H | H].
  - now rewrite H.
  - subst role. cbn. destruct (ui_role u) as [|c r]; [reflexivity|].
    now rewrite String.eqb_refl.
Qed.

(** X23. A user created by [create_user] is active and is listed: when
    fewer than 100 users match the listing before the call, the listing
    without a role, or for the role of the new user, answers the new user
    under the returned identifier. *)
Theorem created_user_listed now u s role :
  query_value role = None \/ role = Some (ui_role u) ->
  (List.length (filter (users_query role) (user s)) < 100)%nat ->
  exists i s1 out,
    create_user bson now u s = (Returned (IdResponse i), s1) /\
    list_users bson role s1 = (Returned out, s1) /\
    In (UserOut.mk i (ui_name u) (ui_email u) (ui_role u) (ui_department u)
          (ui_manager_id u) true now) out.
Proof.
  intros Hrole Hlen. unfold create_user, list_users. unfold_store_ops.
  do 3 eexists. split; [reflexivity|]. split; [reflexivity|].
  cbn [user set_user set_next_oid]. rewrite filter_app. cbn [filter].
  rewrite (users_query_new role _ _ _ Hrole), firstn_app, map_app.
  apply in_or_app. right.
  destruct (100 - List.length (filter (users_query role) (user s)))%nat
    as [|k] eqn:E; [lia|].
  cbn. left. reflexivity.
Qed.

(** X24. The listing stops at 100 users: when 100 users or more match the
    listing before [create_user], the listing answers the same users after
    it, without the new one. *)
Theorem created_user_beyond_limit now u s role :
  (100 <= List.length (filter (users_query role) (user s)))%nat ->
  fst (list_users bson role (snd (create_user bson now u s)))
  = fst (list_users bson role s).
Proof.
  intros Hlen. unfold create_user, list_users. unfold_store_ops.
  cbn [fst snd user set_user set_next_oid]. rewrite filter_app, firstn_app.
  replace (100 - List.length (filter (users_query role) (user s)))%nat
    with 0%nat by lia.
  cbn [firstn]. now rewrite app_nil_r.
Qed.


End Properties.

(** * The properties on the example data *)

Lemma pr_status_monotonic_witness :
  nth_error (purchaserequest submitted_store) 0 = Some submitted_pr /\
  exists p1 p2,
    nth_error
      (purchaserequest
         (run Hex.codec left_sum [(5, POST_prs_decision id_PR approve_by_M)]
            submitted_store)) 0 = Some p1 /\
    nth_error
      (purchaserequest
         (run Hex.codec left_sum
            ([(5, POST_prs_decision id_PR approve_by_M)] ++ [(6, POST_pos po_A1)])
            submitted_store)) 0 = Some p2 /\
    pr_step (PurchaseRequest.status p1) (PurchaseRequest.status p2) /\
    (PurchaseRequest.status submitted_pr = PR_REJECTED \/
     PurchaseRequest.status submitted_pr = PR_ORDERED ->
     PurchaseRequest.status p2 = PurchaseRequest.status submitted_pr).
Proof.
  split; [vm_compute; reflexivity|].
  apply (pr_status_monotonic Hex.codec left_sum
           [(5, POST_prs_decision id_PR approve_by_M)] 6 (POST_pos po_A1)
           submitted_store 0 submitted_pr).
  vm_compute; reflexivity.
Defined.

Lemma decide_pr_single_decision_witness :
  Hex.parse id_PR = Some 3%N /\
  find (fun d => N.eqb (PurchaseRequest._id d) 3) (purchaserequest ordered_store)
    = Some ordered_pr /\
  PurchaseRequest.manager_id ordered_pr = prd_manager_id approve_by_M /\
  decide_pr Hex.codec 9 id_PR approve_by_M ordered_store
    = (Raised conflict, ordered_store).
Proof.
  split; [vm_compute; reflexivity|]. split; [vm_compute; reflexivity|]. split; [vm_compute; reflexivity|].
  apply (decide_pr_single_decision Hex.codec 9 id_PR approve_by_M
           ordered_store 3%N ordered_pr);
    [vm_compute; reflexivity | vm_compute; reflexivity | vm_compute; reflexivity | discriminate].
Defined.

Lemma mark_notification_read_ok_witness :
  Hex.parse id_N = Some 4%N /\
  fst (mark_notification_read Hex.codec 10 id_N ordered_store)
    = Returned OkResponse.
Proof.
  split; [vm_compute; reflexivity|].
  apply (mark_notification_read_ok Hex.codec 10 id_N ordered_store 4%N).
  vm_compute; reflexivity.
Defined.

Lemma create_po_snapshot_witness :
  create_po Hex.codec 6 po_A1 approved_store
    = (Returned (IdResponse id_PO), ordered_store) /\
  exists o pr_doc po,
    Hex.parse (poc_pr_id po_A1) = Some o /\
    find (fun d => N.eqb (PurchaseRequest._id d) o)
         (purchaserequest approved_store) = Some pr_doc /\
    purchaseorder ordered_store = (purchaseorder approved_store ++ [po])%list /\
    id_PO = Hex.print (PurchaseOrder._id po) /\
    PurchaseOrder.pr_id po = poc_pr_id po_A1 /\
    Forall2 same_line (PurchaseRequest.lines pr_doc) (PurchaseOrder.lines po) /\
    (forall prs',
       purchaseorder (set_purchaserequest prs' ordered_store)
         = purchaseorder ordered_store) /\
    (forall reqs, exists po',
       nth_error (purchaseorder (run Hex.codec left_sum reqs ordered_store))
                 (List.length (purchaseorder approved_store)) = Some po' /\
       PurchaseOrder.lines po' = PurchaseOrder.lines po).
Proof.
  split; [vm_compute; reflexivity|].
  apply (create_po_snapshot Hex.codec left_sum 6 po_A1 approved_store id_PO
           ordered_store).
  vm_compute; reflexivity.
Defined.

Lemma create_gr_po_status_witness :
  create_gr Hex.codec left_sum 12 (gr_A1 1) partly_received_store
    = (Returned (IdResponse "00000000000000000000000b"), completed_store) /\
  Hex.parse (grc_po_id (gr_A1 1)) = Some 6%N /\
  Forall (fun g => designates Hex.codec (GoodsReceipt.po_id g) 6%N = true ->
                   GoodsReceipt.po_id g = grc_po_id (gr_A1 1))
    (goodsreceipt partly_received_store) /\
  exists po',
    find (fun d => N.eqb (PurchaseOrder._id d) 6)
         (purchaseorder completed_store) = Some po' /\
    (PurchaseOrder.status po' = PO_RECEIVED <->
     PrimFloat.leb (total_po_qty left_sum po')
       (received_for_po Hex.codec 6%N completed_store) = true) /\
    (PurchaseOrder.status po' = PO_PARTIALLY_RECEIVED <->
     PrimFloat.leb (total_po_qty left_sum po')
       (received_for_po Hex.codec 6%N completed_store) = false) /\
    PurchaseOrder.status po' <> PO_SENT.
Proof.
  assert (Hall : Forall
            (fun g => designates Hex.codec (GoodsReceipt.po_id g) 6%N = true ->
                      GoodsReceipt.po_id g = grc_po_id (gr_A1 1))
            (goodsreceipt partly_received_store)).
  { let l := eval vm_compute in (goodsreceipt partly_received_store) in
    replace (goodsreceipt partly_received_store) with l
      by (vm_compute; reflexivity).
    constructor; [intros _; vm_compute; reflexivity | constructor]. }
  split; [vm_compute; reflexivity|]. split; [vm_compute; reflexivity|].
  split; [exact Hall|].
  apply (create_gr_po_status Hex.codec left_sum 12 (gr_A1 1)
           partly_received_store "00000000000000000000000b" completed_store
           6%N);
    [vm_compute; reflexivity | vm_compute; reflexivity | exact Hall].
Defined.

Lemma create_gr_without_pr_witness :
  Hex.parse id_PO = Some 6%N /\
  find (fun d => N.eqb (PurchaseOrder._id d) 6)
       (purchaseorder (orphan_po_store id_PR)) = Some (sent_po id_PR) /\
  Hex.parse (PurchaseOrder.pr_id (sent_po id_PR)) = Some 3%N /\
  find (fun d => N.eqb (PurchaseRequest._id d) 3)
       (purchaserequest (orphan_po_store id_PR)) = None /\
  exists s',
    create_gr Hex.codec left_sum 9 (gr_A1 4) (orphan_po_store id_PR)
      = (Returned
           (IdResponse (Hex.print (next_oid (orphan_po_store id_PR)))), s') /\
    notification s' = notification (orphan_po_store id_PR).
Proof.
  split; [vm_compute; reflexivity|]. split; [vm_compute; reflexivity|]. split; [vm_compute; reflexivity|].
  split; [vm_compute; reflexivity|].
  destruct (create_gr_without_pr Hex.codec left_sum 9 (gr_A1 4)
              (orphan_po_store id_PR)
              6%N (sent_po id_PR) 3%N)
    as [s' [Hrun [_ [_ [_ Hn]]]]]; try (vm_compute; reflexivity).
  exists s'. split; [exact Hrun | exact Hn].
Defined.

Lemma create_pr_lines_witness :
  Forall (fun l => PrimFloat.ltb 0%float (PRLine.qty l) = true)
    (prc_lines pr_A1) /\
  exists s',
    create_pr Hex.codec 4 pr_A1 master_store
      = (Returned (IdResponse (Hex.print (next_oid master_store))), s') /\
    purchaserequest s'
      = (purchaserequest master_store ++ [submitted_pr])%list.
Proof.
  split; [repeat constructor|].
  apply (create_pr_lines Hex.codec 4 pr_A1 master_store).
  repeat constructor.
Defined.

(** C2, as the spec states it, fails: a receipt without lines against the
    purchase order of scenario A (5 ordered, 0 received) sets the status to
    "partially_received", where P5 derives "sent". *)
Lemma create_gr_no_lines_not_sent :
  create_gr Hex.codec left_sum 9 gr_no_lines ordered_store
    = (Returned (IdResponse id_GR), no_lines_store) /\
  find (fun d => N.eqb (PurchaseOrder._id d) 6) (purchaseorder no_lines_store)
    = Some (set_po_status PO_PARTIALLY_RECEIVED (sent_po id_PR)) /\
  spec_po_status
    (total_po_qty left_sum
       (set_po_status PO_PARTIALLY_RECEIVED (sent_po id_PR)))
    (received_for_po Hex.codec 6%N no_lines_store)
    = PO_SENT /\
  PO_PARTIALLY_RECEIVED <> PO_SENT.
Proof.
  split; [vm_compute; reflexivity|]. split; [vm_compute; reflexivity|].
  split; [vm_compute; reflexivity|].
  discriminate.
Qed.

(** C4, as the spec states it, fails: a submission without lines by a valid
    employee under a valid manager succeeds and the purchase request is
    persisted. *)
Lemma create_pr_no_lines_succeeds :
  prc_lines pr_no_lines = [] /\
  fst (create_pr Hex.codec 4 pr_no_lines master_store)
    = Returned (IdResponse id_PR) /\
  purchaserequest (snd (create_pr Hex.codec 4 pr_no_lines master_store))
    = [PurchaseRequest.mk 3%N id_E id_M None [] PR_SUBMITTED
         None None None None 4].
Proof. vm_compute. repeat split. Qed.

(** C3: a receipt line with a negative quantity is accepted and drives the
    on-hand quantity of its SKU below zero. *)
Lemma negative_receipt_on_hand :
  create_gr Hex.codec left_sum 9 (gr_A1 (-5)) ordered_store
    = (Returned (IdResponse id_GR), negative_store) /\
  on_hand_of "A1" (inventory negative_store) = (-5)%float /\
  PrimFloat.ltb (on_hand_of "A1" (inventory negative_store)) 0%float = true.
Proof. vm_compute. repeat split. Qed.

(** C5: the validation of [create_pr] does not look at [is_active]: a
    submission by a deactivated employee succeeds, and a purchase request
    and a notification are created. *)
Lemma create_pr_inactive_employee :
  option_map User.is_active
    (user_with_role Hex.codec "employee" (prc_employee_id pr_A1)
       inactive_employee_store) = Some false /\
  fst (create_pr Hex.codec 4 pr_A1 inactive_employee_store)
    = Returned (IdResponse id_PR) /\
  purchaserequest (snd (create_pr Hex.codec 4 pr_A1 inactive_employee_store))
    = [submitted_pr] /\
  List.length
    (notification (snd (create_pr Hex.codec 4 pr_A1 inactive_employee_store)))
    = 1%nat.
Proof. vm_compute. repeat split. Qed.

(** * The further properties on the example data *)

Lemma malformed_id_rejected_witness :
  primary_id (POST_pos po_malformed) = Some "not-an-id" /\
  Hex.parse "not-an-id" = None /\
  handle Hex.codec left_sum 9 (POST_pos po_malformed) ordered_store
    = (Raised invalid_id, ordered_store).
Proof.
  split; [reflexivity|]. split; [reflexivity|].
  apply (malformed_id_rejected Hex.codec left_sum 9 (POST_pos po_malformed)
           ordered_store "not-an-id"); reflexivity.
Defined.

Lemma failed_request_writes_nothing_witness :
  handle Hex.codec left_sum 9 (POST_prs_decision id_PR approve_by_M) ordered_store
    = (Raised conflict, ordered_store) /\
  (status_code conflict = 400 \/ status_code conflict = 403 \/
   status_code conflict = 404) /\
  (is_POST_grs (POST_prs_decision id_PR approve_by_M) = false ->
   ordered_store = ordered_store) /\
  (status_code conflict = 404 -> ordered_store = ordered_store).
Proof.
  split; [vm_compute; reflexivity|].
  apply (failed_request_writes_nothing Hex.codec left_sum 9
           (POST_prs_decision id_PR approve_by_M) ordered_store conflict
           ordered_store).
  vm_compute; reflexivity.
Defined.

Lemma decide_pr_lookup_errors_witness :
  Hex.parse id_PR = Some 3%N /\
  decide_pr Hex.codec 9 id_PR decision_by_E submitted_store
    = (Raised {| status_code := 403;
                 detail := "Manager not assigned to this PR" |},
       submitted_store).
Proof.
  split; [vm_compute; reflexivity|].
  generalize (decide_pr_lookup_errors Hex.codec 9 id_PR decision_by_E
                submitted_store 3%N).
  replace (find (fun d => N.eqb (PurchaseRequest._id d) 3)
             (purchaserequest submitted_store))
    with (Some submitted_pr) by (vm_compute; reflexivity).
  intros H. apply H; [vm_compute; reflexivity | discriminate].
Defined.

Lemma decide_pr_effect_witness :
  Hex.parse id_PR = Some 3%N /\
  find (fun d => N.eqb (PurchaseRequest._id d) 3)
       (purchaserequest submitted_store) = Some submitted_pr /\
  PurchaseRequest.manager_id submitted_pr = prd_manager_id approve_by_M /\
  PurchaseRequest.status submitted_pr = PR_SUBMITTED /\
  exists s' p',
    decide_pr Hex.codec 5 id_PR approve_by_M submitted_store
      = (Returned OkResponse, s') /\
    find (fun d => N.eqb (PurchaseRequest._id d) 3) (purchaserequest s')
      = Some p' /\
    PurchaseRequest.status p' = PR_APPROVED /\
    PurchaseRequest.approved_at p' = Some 5.
Proof.
  split; [vm_compute; reflexivity|]. split; [vm_compute; reflexivity|].
  split; [reflexivity|]. split; [reflexivity|].
  destruct (decide_pr_effect Hex.codec 5 id_PR approve_by_M submitted_store
              3%N submitted_pr)
    as [s' [p' [Hrun [Hfind [Hp _]]]]]; try (vm_compute; reflexivity).
  exists s', p'. split; [exact Hrun|]. split; [exact Hfind|].
  subst p'. split; reflexivity.
Defined.

Lemma create_po_refusals_witness :
  Hex.parse (poc_pr_id po_A1) = Some 3%N /\
  create_po Hex.codec 6 po_A1 submitted_store
    = (Raised {| status_code := 400; detail := "PR is not approved" |},
       submitted_store).
Proof.
  split; [vm_compute; reflexivity|].
  generalize (create_po_refusals Hex.codec 6 po_A1 submitted_store 3%N).
  replace (find (fun d => N.eqb (PurchaseRequest._id d) 3)
             (purchaserequest submitted_store))
    with (Some submitted_pr) by (vm_compute; reflexivity).
  intros H. apply H; [vm_compute; reflexivity | discriminate].
Defined.

Lemma create_po_links_witness :
  create_po Hex.codec 6 po_A1 approved_store
    = (Returned (IdResponse id_PO), ordered_store) /\
  find (fun d => N.eqb (PurchaseRequest._id d) 3) (purchaserequest ordered_store)
    = Some ordered_pr.
Proof.
  split; [vm_compute; reflexivity|].
  destruct (create_po_links Hex.codec 6 po_A1 approved_store
              (IdResponse id_PO) ordered_store)
    as [o [p [Hid [Hfind [_ [_ [_ [Hnew _]]]]]]]];
    [vm_compute; reflexivity|].
  vm_compute in Hid. inversion Hid; subst o.
  vm_compute in Hfind. inversion Hfind; subst p.
  rewrite Hnew. vm_compute. reflexivity.
Defined.

Lemma create_po_once_witness :
  create_po Hex.codec 6 po_A1 approved_store
    = (Returned (IdResponse id_PO), ordered_store) /\
  create_po Hex.codec 7 po_A1 ordered_store
    = (Raised {| status_code := 400; detail := "PR is not approved" |},
       ordered_store).
Proof.
  split; [vm_compute; reflexivity|].
  apply (create_po_once Hex.codec 6 po_A1 approved_store (IdResponse id_PO)
           ordered_store); [vm_compute; reflexivity | reflexivity].
Defined.

Lemma create_gr_effect_witness :
  create_gr Hex.codec left_sum 9 (gr_A1 4) ordered_store
    = (Returned (IdResponse id_GR), partly_received_store) /\
  stock "A1" (inventory partly_received_store)
  = inc_all (stock "A1" (inventory ordered_store))
      (quantities_for "A1" (grc_lines (gr_A1 4))).
Proof.
  split; [vm_compute; reflexivity|].
  apply (create_gr_effect Hex.codec left_sum 9 (gr_A1 4) ordered_store
           (IdResponse id_GR) partly_received_store).
  vm_compute; reflexivity.
Defined.

Lemma create_gr_total_incremental_witness :
  create_gr Hex.codec left_sum 9 (gr_A1 4) ordered_store
    = (Returned (IdResponse id_GR), partly_received_store) /\
  received_total id_PO partly_received_store
  = fold_add (received_total id_PO ordered_store)
      (map GRLine.qty_received (grc_lines (gr_A1 4))).
Proof.
  split; [vm_compute; reflexivity|].
  apply (create_gr_total_incremental Hex.codec left_sum 9 (gr_A1 4)
           ordered_store (IdResponse id_GR) partly_received_store).
  vm_compute; reflexivity.
Defined.

Lemma inventory_records_nonneg_witness :
  Forall (fun l => PrimFloat.leb 0%float (GRLine.qty_received l) = true)
    (flat_map GoodsReceipt.lines
       (goodsreceipt (run Hex.codec left_sum scenario_requests empty_store))) /\
  In A1_record
     (inventory (run Hex.codec left_sum scenario_requests empty_store)) /\
  PrimFloat.leb 0%float (Inventory.on_hand A1_record) = true.
Proof.
  assert (Hpos : Forall
            (fun l => PrimFloat.leb 0%float (GRLine.qty_received l) = true)
            (flat_map GoodsReceipt.lines
               (goodsreceipt
                  (run Hex.codec left_sum scenario_requests empty_store))))
    by (vm_compute; repeat constructor).
  assert (Hin : In A1_record
                  (inventory
                     (run Hex.codec left_sum scenario_requests empty_store)))
    by (vm_compute; left; reflexivity).
  split; [exact Hpos|]. split; [exact Hin|].
  exact (inventory_records_nonneg Hex.codec left_sum scenario_requests
           A1_record Hpos Hin).
Defined.

Lemma inventory_records_witness :
  In A1_record
     (inventory (run Hex.codec left_sum scenario_requests empty_store)) /\
  exists b,
    (b = None \/ b = Some 0%float) /\
    Some (Inventory.on_hand A1_record)
    = inc_all b
        (posted_quantities (Inventory.sku A1_record)
           (run Hex.codec left_sum scenario_requests empty_store)).
Proof.
  assert (Hin : In A1_record
                  (inventory
                     (run Hex.codec left_sum scenario_requests empty_store)))
    by (vm_compute; left; reflexivity).
  split; [exact Hin|].
  exact (inventory_records Hex.codec left_sum scenario_requests A1_record Hin).
Defined.

Lemma submit_then_decide_witness :
  Hex.parse (Hex.print (next_oid master_store)) = Some (next_oid master_store) /\
  ids_fresh master_store /\
  create_pr Hex.codec 4 pr_A1 master_store
    = (Returned (IdResponse id_PR), submitted_store) /\
  prd_manager_id approve_by_M = prc_manager_id pr_A1 /\
  exists s2 p',
    decide_pr Hex.codec 5 id_PR approve_by_M submitted_store
      = (Returned OkResponse, s2) /\
    nth_error (purchaserequest s2)
              (List.length (purchaserequest master_store)) = Some p' /\
    PurchaseRequest.status p' = PR_APPROVED.
Proof.
  assert (Hf : ids_fresh master_store)
    by (unfold master_store; apply run_ids_fresh, empty_store_ids_fresh).
  split; [vm_compute; reflexivity|]. split; [exact Hf|].
  split; [vm_compute; reflexivity|]. split; [reflexivity|].
  destruct (submit_then_decide Hex.codec 4 pr_A1 master_store id_PR
              submitted_store 5 approve_by_M)
    as [s2 [p' [Hrun [Hnth [Hst _]]]]];
    try exact Hf; try (vm_compute; reflexivity).
  exists s2, p'. split; [exact Hrun|]. split; [exact Hnth | exact Hst].
Defined.

Lemma order_then_receive_witness :
  Hex.parse (Hex.print (next_oid approved_store))
    = Some (next_oid approved_store) /\
  ids_fresh approved_store /\
  create_po Hex.codec 6 po_A1 approved_store
    = (Returned (IdResponse id_PO), ordered_store) /\
  exists g s2 n,
    create_gr Hex.codec left_sum 9 {| grc_po_id := id_PO; grc_lines := [] |} ordered_store
      = (Returned (IdResponse g), s2) /\
    notification s2 = (notification ordered_store ++ [n])%list /\
    Notification.title n = "Goods Received".
Proof.
  assert (Hf : ids_fresh approved_store).
  { unfold approved_store, submitted_store, master_store.
    repeat apply run_ids_fresh. apply empty_store_ids_fresh. }
  split; [vm_compute; reflexivity|]. split; [exact Hf|].
  split; [vm_compute; reflexivity|].
  destruct (order_then_receive Hex.codec left_sum 6 po_A1 approved_store id_PO
              ordered_store 9 [])
    as [o [p [g [s2 [n [_ [_ [Hrun [Hn [_ [_ [Ht _]]]]]]]]]]]];
    try exact Hf; try (vm_compute; reflexivity).
  exists g, s2, n. split; [exact Hrun|]. split; [exact Hn | exact Ht].
Defined.

Lemma notifications_one_target_witness :
  In submission_notification
     (notification (run Hex.codec left_sum scenario_requests empty_store)) /\
  one_target submission_notification.
Proof.
  assert (Hin : In submission_notification
                  (notification (run Hex.codec left_sum scenario_requests empty_store)))
    by (vm_compute; left; reflexivity).
  split; [exact Hin|].
  exact (notifications_one_target Hex.codec left_sum scenario_requests
           submission_notification Hin).
Defined.

Lemma list_notifications_both_filters_witness :
  query_value (Some id_M) <> None /\
  query_value (Some "purchasing") <> None /\
  list_notifications Hex.codec (Some id_M) (Some "purchasing")
    (run Hex.codec left_sum scenario_requests empty_store) [] /\
  @nil NotificationOut.t = [].
Proof.
  assert (Hl : list_notifications Hex.codec (Some id_M) (Some "purchasing")
                 (run Hex.codec left_sum scenario_requests empty_store) []).
  { split; [vm_compute; apply perm_nil | constructor]. }
  split; [discriminate|]. split; [discriminate|]. split; [exact Hl|].
  apply (list_notifications_both_filters Hex.codec left_sum scenario_requests
           (Some id_M) (Some "purchasing") []);
    [discriminate | discriminate | exact Hl].
Defined.

Lemma mark_read_unlists_witness :
  Hex.parse id_N = Some 4%N /\
  NoDup (map Notification._id (notification approved_store)) /\
  list_notifications Hex.codec None None
    (snd (mark_notification_read Hex.codec 10 id_N approved_store))
    [with_id_notification Hex.codec approval_notification] /\
  exists d,
    In d (notification approved_store) /\
    Notification._id d <> 4%N /\
    Notification.read d = false /\
    with_id_notification Hex.codec approval_notification
      = with_id_notification Hex.codec d.
Proof.
  assert (Hn : NoDup (map Notification._id (notification approved_store))).
  { assert (Hf : ids_fresh approved_store).
    { unfold approved_store, submitted_store, master_store.
      repeat apply run_ids_fresh. apply empty_store_ids_fresh. }
    destruct Hf as [_ [_ [Hn _]]]. exact Hn. }
  assert (Hl : list_notifications Hex.codec None None
                 (snd (mark_notification_read Hex.codec 10 id_N approved_store))
                 [with_id_notification Hex.codec approval_notification]).
  { split; [vm_compute; apply Permutation_refl | repeat constructor]. }
  split; [vm_compute; reflexivity|]. split; [exact Hn|]. split; [exact Hl|].
  apply (mark_read_unlists Hex.codec 10 id_N approved_store 4%N None None
           [with_id_notification Hex.codec approval_notification]);
    [vm_compute; reflexivity | exact Hn | exact Hl | left; reflexivity].
Defined.

Lemma create_pr_notifies_manager_witness :
  create_pr Hex.codec 4 pr_A1 master_store
    = (Returned (IdResponse id_PR), submitted_store) /\
  list_notifications Hex.codec (Some (prc_manager_id pr_A1)) None
    submitted_store [with_id_notification Hex.codec submission_notification] /\
  exists x,
    In x [with_id_notification Hex.codec submission_notification] /\
    NotificationOut.to_user_id x = Some (prc_manager_id pr_A1) /\
    NotificationOut.title x = "New Purchase Request" /\
    NotificationOut.link_type x = Some "PR" /\
    NotificationOut.link_id x = Some id_PR /\
    NotificationOut.read x = false.
Proof.
  assert (Hl : list_notifications Hex.codec (Some (prc_manager_id pr_A1)) None
                 submitted_store
                 [with_id_notification Hex.codec submission_notification]).
  { split; [vm_compute; apply Permutation_refl | repeat constructor]. }
  split; [vm_compute; reflexivity|]. split; [exact Hl|].
  apply (create_pr_notifies_manager Hex.codec 4 pr_A1 master_store id_PR
           submitted_store);
    [vm_compute; reflexivity | exact Hl].
Defined.

Lemma approval_notifies_purchasing_witness :
  prd_approve approve_by_M = true /\
  decide_pr Hex.codec 5 id_PR approve_by_M submitted_store
    = (Returned OkResponse, approved_store) /\
  list_notifications Hex.codec None (Some "purchasing") approved_store
    [with_id_notification Hex.codec approval_notification] /\
  exists x,
    In x [with_id_notification Hex.codec approval_notification] /\
    NotificationOut.to_user_id x = None /\
    NotificationOut.role x = Some "purchasing" /\
    NotificationOut.title x = "PR Approved" /\
    NotificationOut.link_id x = Some id_PR /\
    NotificationOut.read x = false.
Proof.
  assert (Hl : list_notifications Hex.codec None (Some "purchasing")
                 approved_store
                 [with_id_notification Hex.codec approval_notification]).
  { split; [vm_compute; apply Permutation_refl | repeat constructor]. }
  split; [reflexivity|]. split; [vm_compute; reflexivity|]. split; [exact Hl|].
  apply (approval_notifies_purchasing Hex.codec 5 id_PR approve_by_M
           submitted_store approved_store);
    [reflexivity | vm_compute; reflexivity | exact Hl].
Defined.

Lemma created_user_listed_witness :
  (query_value None = None \/ None = Some (ui_role user_E)) /\
  (List.length (filter (users_query None) (user empty_store)) < 100)%nat /\
  exists i s1 out,
    create_user Hex.codec 1 user_E empty_store = (Returned (IdResponse i), s1) /\
    list_users Hex.codec None s1 = (Returned out, s1) /\
    In (UserOut.mk i (ui_name user_E) (ui_email user_E) (ui_role user_E)
          (ui_department user_E) (ui_manager_id user_E) true 1) out.
Proof.
  assert (Hlen : (List.length (filter (users_query None) (user empty_store))
                  < 100)%nat) by (cbn; lia).
  split; [left; reflexivity|]. split; [exact Hlen|].
  apply (created_user_listed Hex.codec 1 user_E empty_store None);
    [left; reflexivity | exact Hlen].
Defined.

Lemma created_user_beyond_limit_witness :
  (100 <= List.length (filter (users_query None) (user crowded_store)))%nat /\
  fst (list_users Hex.codec None
         (snd (create_user Hex.codec 1 user_M crowded_store)))
  = fst (list_users Hex.codec None crowded_store).
Proof.
  assert (Hlen : (100 <= List.length
                           (filter (users_query None) (user crowded_store)))%nat)
    by (vm_compute; apply le_n).
  split; [exact Hlen|].
  exact (created_user_beyond_limit Hex.codec 1 user_M crowded_store None Hlen).
Defined.
